(** * skybm-backend: the route handlers of [server.js]

    A shallow embedding of the Express route handlers of [server.js] and of
    the two collaborators they talk to (the Mongoose models [Blog] and
    [GalleryImage], and the Cloudinary uploader), followed by the properties
    of the blog and gallery managers.

    Layout:
    - JavaScript values, truthiness and property access;
    - handler programs: a tree of calls to the collaborators, with the
      [try { ... } catch] of every handler;
    - the handlers themselves, one definition per route;
    - the collaborators: schemas, collections, query evaluation, and the
      schedule that decides which awaited calls reject and what other
      requests do to the store in between;
    - the theorems. *)

From Stdlib Require Import ZArith String List Bool Lia Permutation Sorted.
From Stdlib Require Import DecimalString.
Import ListNotations.

Local Open Scope string_scope.
Local Open Scope Z_scope.
Local Set Warnings "-register-all".

(* ------------------------------------------------------------------ *)
(** ** JavaScript values *)

(** The values a handler manipulates: what [express.json()] parses out of a
    request body, plus [undefined] for a missing property and [Date]
    objects ([JDate None] is an Invalid Date).  Numbers are the integer
    literals; fractional literals play no role in the handlers. *)
Inductive jsval : Type :=
| JUndefined
| JNull
| JBool (b : bool)
| JNum (n : Z)
| JStr (s : string)
| JDate (t : option Z)
| JArr (items : list jsval)
| JObj (fields : list (string * jsval)).

(** ToBoolean: what [!x] and [x ? a : b] test. *)
Definition truthy (v : jsval) : bool :=
  match v with
  | JUndefined | JNull => false
  | JBool b => b
  | JNum n => negb (n =? 0)
  | JStr s => negb (String.eqb s EmptyString)
  | JDate _ | JArr _ | JObj _ => true
  end.

Definition nullish (v : jsval) : bool :=
  match v with
  | JUndefined | JNull => true
  | _ => false
  end.

Fixpoint lookup (k : string) (fields : list (string * jsval)) : jsval :=
  match fields with
  | [] => JUndefined
  | (k', v) :: rest => if String.eqb k k' then v else lookup k rest
  end.

(** [v.k] on a value that is not [null] or [undefined]. *)
Definition get (v : jsval) (k : string) : jsval :=
  match v with
  | JObj fields => lookup k fields
  | _ => JUndefined
  end.

Definition keys (v : jsval) : list string :=
  match v with
  | JObj fields => map fst fields
  | _ => []
  end.

(** The object literal [{ message: text }]. *)
Definition message (text : string) : jsval := JObj [("message", JStr text)].

Definition TypeError (text : string) : jsval :=
  JObj [("name", JStr "TypeError"); ("message", JStr text)].

(* ------------------------------------------------------------------ *)
(** ** Requests and responses *)

Record request := { params : jsval; body : jsval }.

(** What [res.status(s).json(b)] sends; [res.json(b)] sends status 200. *)
Record response := { status : Z; sent : jsval }.

Definition res_status_json (s : Z) (b : jsval) : response :=
  {| status := s; sent := b |}.

Definition res_json (b : jsval) : response := res_status_json 200 b.

(* ------------------------------------------------------------------ *)
(** ** Calls to the collaborators *)

Inductive direction := ascending | descending.

(** The paths of type [Date] of the two schemas, the ones a handler sorts
    by. *)
Inductive gallery_date_path := gallery_createdAt.
Inductive blog_date_path := blog_publishDate | blog_createdAt | blog_updatedAt.

Inductive call : Type :=
(** [GalleryImage.find().sort({ path: dir })] *)
| GalleryImage_find_sort (path : gallery_date_path) (dir : direction)
(** [new GalleryImage(obj)] *)
| GalleryImage_new (obj : jsval)
(** [doc.save()] on a [GalleryImage] document *)
| GalleryImage_save (doc : jsval)
(** [GalleryImage.findById(id)] *)
| GalleryImage_findById (id : jsval)
(** [GalleryImage.findByIdAndDelete(id)] *)
| GalleryImage_findByIdAndDelete (id : jsval)
(** [cloudinary.uploader.destroy(publicId)] *)
| cloudinary_uploader_destroy (publicId : jsval)
(** [Blog.find({}, projection).sort({ path: dir })]; [None] is no
    projection, [Some [p1; ...]] is [{ p1: 1, ... }] *)
| Blog_find_sort (projection : option (list string))
                 (path : blog_date_path) (dir : direction)
(** [Blog.findOne({ slug })] *)
| Blog_findOne_slug (slug : jsval)
(** [Blog.findOneAndDelete({ slug })] *)
| Blog_findOneAndDelete_slug (slug : jsval)
(** [new Blog(obj)] *)
| Blog_new (obj : jsval)
(** [doc.save()] on a [Blog] document *)
| Blog_save (doc : jsval)
(** [new Date()] for [None], [new Date(v)] for [Some v] *)
| Date_new (arg : option jsval)
(** [console.error(...args)] *)
| console_error (args : list jsval).

(** The calls a handler [await]s: while one is pending other requests run,
    and it may reject.  The constructors and [console.error] are
    synchronous. *)
Definition awaited (c : call) : bool :=
  match c with
  | GalleryImage_new _ | Blog_new _ | Date_new _ | console_error _ => false
  | _ => true
  end.

(** How a call ends: it returns a value or it raises. *)
Inductive result : Type :=
| Returned (v : jsval)
| Raised (e : jsval).

(* ------------------------------------------------------------------ *)
(** ** Handler programs *)

(** A program is the tree of calls it makes; each continuation receives the
    way the call ended. *)
Inductive prog (A : Type) : Type :=
| Ret (a : A)
| Call (c : call) (k : result -> prog A).

Arguments Ret {A} a.
Arguments Call {A} c k.

Fixpoint pbind {A B : Type} (p : prog A) (f : A -> prog B) : prog B :=
  match p with
  | Ret a => f a
  | Call c k => Call c (fun r => pbind (k r) f)
  end.

(** The body of a [try] block either completes or throws. *)
Inductive completion (A : Type) : Type :=
| Normal (a : A)
| Thrown (e : jsval).

Arguments Normal {A} a.
Arguments Thrown {A} e.

Definition action (A : Type) : Type := prog (completion A).

Definition ret {A : Type} (a : A) : action A := Ret (Normal a).

Definition throw {A : Type} (e : jsval) : action A := Ret (Thrown e).

Definition bind {A B : Type} (m : action A) (f : A -> action B) : action B :=
  pbind m (fun c =>
    match c with
    | Normal a => f a
    | Thrown e => Ret (Thrown e)
    end).

(** Issue a call ([await] it when it is asynchronous); a rejection is
    thrown at the call site. *)
Definition perform (c : call) : action jsval :=
  Call c (fun r =>
    match r with
    | Returned v => Ret (Normal v)
    | Raised e => Ret (Thrown e)
    end).

(** [try { m } catch (err) { h err }] *)
Definition try_catch {A : Type} (m : action A) (h : jsval -> prog A) : prog A :=
  pbind m (fun c =>
    match c with
    | Normal a => Ret a
    | Thrown e => h e
    end).

Declare Scope action_scope.
Delimit Scope action_scope with action.

Notation "x <- m ;; k" := (bind m (fun x => k))
  (at level 100, m at next level, right associativity) : action_scope.
Notation "m ;;; k" := (bind m (fun _ => k))
  (at level 100, right associativity) : action_scope.

Local Open Scope action_scope.

(** [const { a, b } = v]: reading properties off [null] or [undefined]
    throws. *)
Definition destructure (v : jsval) : action jsval :=
  if nullish v then throw (TypeError "Cannot destructure") else ret v.

(* ------------------------------------------------------------------ *)
(** ** The routes *)

(** [app.get("/")] *)
Definition get_root (req : request) : prog response :=
  Ret (res_json (JObj [("status", JStr "API is running")])).

(** [app.get("/api/gallery")] *)
Definition get_api_gallery (req : request) : prog response :=
  try_catch
    (images <- perform (GalleryImage_find_sort gallery_createdAt descending) ;;
     ret (res_json images))
    (fun err =>
       Ret (res_status_json 500 (message "Failed to fetch images"))).

(** [app.post("/api/gallery")] *)
Definition post_api_gallery (req : request) : prog response :=
  try_catch
    (b <- destructure (body req) ;;
     let src := get b "src" in
     let publicId := get b "publicId" in
     let alt := get b "alt" in
     if negb (truthy src) || negb (truthy publicId) then
       ret (res_status_json 400 (message "Missing image data"))
     else
       newImage <- perform (GalleryImage_new
                     (JObj [("src", src); ("publicId", publicId); ("alt", alt)])) ;;
       (* [save] updates the document in place: what it returns here is
          [newImage] as the save left it *)
       newImage <- perform (GalleryImage_save newImage) ;;
       ret (res_status_json 201 newImage))
    (fun err =>
       Ret (res_status_json 500 (message "Failed to save image"))).

(** [app.delete("/api/gallery/:id")] *)
Definition delete_api_gallery_id (req : request) : prog response :=
  try_catch
    (image <- perform (GalleryImage_findById (get (params req) "id")) ;;
     if negb (truthy image) then
       ret (res_status_json 404 (message "Image not found"))
     else
       (* Step A: delete from Cloudinary *)
       perform (cloudinary_uploader_destroy (get image "publicId")) ;;;
       (* Step B: delete from MongoDB *)
       perform (GalleryImage_findByIdAndDelete (get (params req) "id")) ;;;
       ret (res_json (message "Image deleted successfully")))
    (fun err =>
       Call (console_error [err]) (fun _ =>
       Ret (res_status_json 500 (message "Delete failed")))).

(** [app.get("/api/blogs")] *)
Definition get_api_blogs (req : request) : prog response :=
  try_catch
    (blogs <- perform (Blog_find_sort None blog_publishDate descending) ;;
     ret (res_json blogs))
    (fun _ =>
       Ret (res_status_json 500 (message "Failed to fetch blogs"))).

(** [app.get("/api/blogs/:slug")] *)
Definition get_api_blogs_slug (req : request) : prog response :=
  try_catch
    (blog <- perform (Blog_findOne_slug (get (params req) "slug")) ;;
     if negb (truthy blog) then
       ret (res_status_json 404 (message "Blog not found"))
     else
       ret (res_json blog))
    (fun _ =>
       Ret (res_status_json 500 (message "Error fetching blog"))).

(** [app.get("/api/admin/blogs")] *)
Definition get_api_admin_blogs (req : request) : prog response :=
  try_catch
    (blogs <- perform (Blog_find_sort (Some ["title"; "slug"])
                         blog_createdAt descending) ;;
     ret (res_json blogs))
    (fun _ =>
       Ret (res_status_json 500 (message "Failed to fetch blog list"))).

(** The fields [app.post("/api/blogs")] insists on. *)
Definition required_blog_fields : list string :=
  ["title"; "excerpt"; "category"; "content"; "slug"].

(** [app.post("/api/blogs")] *)
Definition post_api_blogs (req : request) : prog response :=
  try_catch
    (b <- destructure (body req) ;;
     let title := get b "title" in
     let excerpt := get b "excerpt" in
     let featuredImage := get b "featuredImage" in
     let category := get b "category" in
     let content := get b "content" in
     let slug := get b "slug" in
     let author := get b "author" in
     let readTime := get b "readTime" in
     let tags := get b "tags" in
     let publishDate := get b "publishDate" in
     if negb (truthy title) || negb (truthy excerpt) || negb (truthy category)
        || negb (truthy content) || negb (truthy slug) then
       ret (res_status_json 400 (message "Missing required fields"))
     else
       exists_ <- perform (Blog_findOne_slug slug) ;;
       if truthy exists_ then
         ret (res_status_json 409 (message "Slug already exists"))
       else
         date <- perform (Date_new (if truthy publishDate
                                    then Some publishDate
                                    else None)) ;;
         newBlog <- perform (Blog_new
                      (JObj [("title", title);
                             ("excerpt", excerpt);
                             ("featuredImage", featuredImage);
                             ("category", category);
                             ("content", content);
                             ("slug", slug);
                             ("author", author);
                             ("readTime", readTime);
                             ("tags", tags);
                             ("publishDate", date)])) ;;
         savedBlog <- perform (Blog_save newBlog) ;;
         ret (res_status_json 201 savedBlog))
    (fun err =>
       Call (console_error [JStr "Create error:"; get err "message"]) (fun _ =>
       Ret (res_status_json 500 (message "Failed to create blog")))).

(** [app.delete("/api/blogs/slug/:slug")] *)
Definition delete_api_blogs_slug_slug (req : request) : prog response :=
  try_catch
    (deleted <- perform (Blog_findOneAndDelete_slug (get (params req) "slug")) ;;
     if negb (truthy deleted) then
       ret (res_status_json 404 (message "Blog not found"))
     else
       ret (res_json (message "Blog deleted successfully")))
    (fun _ =>
       Ret (res_status_json 500 (message "Delete failed"))).

(* ------------------------------------------------------------------ *)
(** ** Schemas *)

Inductive schema_type := SchemaString | SchemaNumber | SchemaDate | SchemaStringArray.

Inductive schema_default :=
| no_default
| default_value (v : jsval)
| default_Date_now.

Record schema_path := {
  path : string;
  path_type : schema_type;
  required : bool;
  unique : bool;
  default : schema_default
}.

Record schema := { paths : list schema_path; timestamps : bool }.

Definition blogSchema : schema :=
  {| paths :=
       [ {| path := "title"; path_type := SchemaString; required := true;
            unique := false; default := no_default |};
         {| path := "excerpt"; path_type := SchemaString; required := true;
            unique := false; default := no_default |};
         {| path := "featuredImage"; path_type := SchemaString; required := false;
            unique := false; default := no_default |};
         {| path := "publishDate"; path_type := SchemaDate; required := true;
            unique := false; default := no_default |};
         {| path := "slug"; path_type := SchemaString; required := true;
            unique := true; default := no_default |};
         {| path := "category"; path_type := SchemaString; required := true;
            unique := false; default := no_default |};
         {| path := "author"; path_type := SchemaString; required := false;
            unique := false; default := default_value (JStr "Admin") |};
         {| path := "readTime"; path_type := SchemaNumber; required := false;
            unique := false; default := no_default |};
         (* an array path starts out as the empty array *)
         {| path := "tags"; path_type := SchemaStringArray; required := false;
            unique := false; default := default_value (JArr []) |};
         {| path := "content"; path_type := SchemaString; required := true;
            unique := false; default := no_default |} ];
     timestamps := true |}.

Definition gallerySchema : schema :=
  {| paths :=
       [ {| path := "src"; path_type := SchemaString; required := true;
            unique := false; default := no_default |};
         {| path := "publicId"; path_type := SchemaString; required := true;
            unique := false; default := no_default |};
         {| path := "alt"; path_type := SchemaString; required := false;
            unique := false; default := default_value (JStr "Event Image") |};
         {| path := "createdAt"; path_type := SchemaDate; required := false;
            unique := false; default := default_Date_now |} ];
     timestamps := false |}.

(** What the handlers rely on from the JavaScript runtime and from the
    Mongoose casts, neither of which is part of [server.js]: the [Date]
    constructor on one argument, the generator of document identifiers,
    and the cast of a supplied value to the type of a path ([None] is a
    CastError).  Only two facts about the casts are used: a string is
    already a string and a valid [Date] is already a date. *)
Record Library := {
  new_Date : jsval -> option Z;
  new_ObjectId : nat -> string;
  castString : jsval -> option jsval;
  castNumber : jsval -> option jsval;
  castDate : jsval -> option jsval;
  castStringArray : jsval -> option jsval;
  castString_string : forall s, castString (JStr s) = Some (JStr s);
  castDate_valid : forall t, castDate (JDate (Some t)) = Some (JDate (Some t))
}.

(** The default of a path applies when the supplied value is [undefined],
    and only then. *)
Definition or_default (d v : jsval) : jsval :=
  match v with
  | JUndefined => d
  | _ => v
  end.

Definition apply_default (now : Z) (p : schema_path) (v : jsval) : jsval :=
  match default p with
  | no_default => v
  | default_value d => or_default d v
  | default_Date_now => or_default (JDate (Some now)) v
  end.

(** [new Model(obj)]: a fresh [_id], and for each path of the schema the
    value [obj] supplies or the default; properties of [obj] that are not
    paths of the schema are dropped. *)
Definition construct (s : schema) (oid : string) (now : Z) (obj : jsval) : jsval :=
  JObj (("_id", JStr oid)
        :: map (fun p => (path p, apply_default now p (get obj (path p))))
               (paths s)).

Definition cast (lib : Library) (t : schema_type) (v : jsval) : option jsval :=
  if nullish v then Some v
  else match t with
       | SchemaString => castString lib v
       | SchemaNumber => castNumber lib v
       | SchemaDate => castDate lib v
       | SchemaStringArray => castStringArray lib v
       end.

(** The [required] validator of each type. *)
Definition present (t : schema_type) (v : jsval) : bool :=
  match t, v with
  | SchemaString, JStr s => negb (String.eqb s EmptyString)
  | SchemaNumber, JNum _ => true
  | SchemaDate, JDate (Some _) => true
  | SchemaStringArray, JArr _ => true
  | _, _ => false
  end.

Definition validate_path (lib : Library) (doc : jsval) (p : schema_path)
  : option (string * jsval) :=
  match cast lib (path_type p) (get doc (path p)) with
  | None => None
  | Some v =>
      if required p && negb (present (path_type p) v) then None
      else Some (path p, v)
  end.

Fixpoint validate_paths (lib : Library) (doc : jsval) (ps : list schema_path)
  : option (list (string * jsval)) :=
  match ps with
  | [] => Some []
  | p :: ps' =>
      match validate_path lib doc p, validate_paths lib doc ps' with
      | Some f, Some fs => Some (f :: fs)
      | _, _ => None
      end
  end.

(** Validation on [save]: every path casts and every required path is
    present; [None] is a ValidationError. *)
Definition validate (lib : Library) (s : schema) (doc : jsval)
  : option (list (string * jsval)) :=
  validate_paths lib doc (paths s).

Definition ValidationError : jsval :=
  JObj [("name", JStr "ValidationError"); ("message", JStr "validation failed")].

Definition CastError : jsval :=
  JObj [("name", JStr "CastError"); ("message", JStr "cast failed")].

Definition DuplicateKeyError : jsval :=
  JObj [("name", JStr "MongoServerError");
        ("message", JStr "E11000 duplicate key error")].

Definition as_string (v : jsval) : option string :=
  match v with
  | JStr s => Some s
  | _ => None
  end.

Definition as_time (v : jsval) : option Z :=
  match v with
  | JDate (Some t) => Some t
  | _ => None
  end.

(** [JSON.stringify] drops the properties whose value is [undefined]. *)
Definition defined_fields (fs : list (string * jsval)) : list (string * jsval) :=
  filter (fun kv => match snd kv with JUndefined => false | _ => true end) fs.

(* ------------------------------------------------------------------ *)
(** ** Collections *)

(** A stored [GalleryImage] document. *)
Module GalleryImage.

Record doc := {
  _id : string;
  src : string;
  publicId : string;
  alt : jsval;
  createdAt : Z;
  __v : Z
}.

Definition toObject (d : doc) : jsval :=
  JObj (defined_fields
          [("_id", JStr (_id d));
           ("src", JStr (src d));
           ("publicId", JStr (publicId d));
           ("alt", alt d);
           ("createdAt", JDate (Some (createdAt d)));
           ("__v", JNum (__v d))]).

(** The document an insert stores, from its validated paths. *)
Definition of_fields (oid : string) (fs : list (string * jsval)) : option doc :=
  match as_string (lookup "src" fs),
        as_string (lookup "publicId" fs),
        as_time (lookup "createdAt" fs) with
  | Some s, Some p, Some t =>
      Some {| _id := oid; src := s; publicId := p;
              alt := lookup "alt" fs; createdAt := t; __v := 0 |}
  | _, _, _ => None
  end.

Definition time_at (p : gallery_date_path) (d : doc) : Z :=
  match p with
  | gallery_createdAt => createdAt d
  end.

Definition has_id (id : jsval) (d : doc) : bool :=
  match id with
  | JStr s => String.eqb (_id d) s
  | _ => false
  end.

End GalleryImage.

(** A stored [Blog] document. *)
Module Blog.

Record doc := {
  _id : string;
  title : string;
  excerpt : string;
  featuredImage : jsval;
  publishDate : Z;
  slug : string;
  category : string;
  author : jsval;
  readTime : jsval;
  tags : jsval;
  content : string;
  createdAt : Z;
  updatedAt : Z;
  __v : Z
}.

Definition toObject (d : doc) : jsval :=
  JObj (defined_fields
          [("_id", JStr (_id d));
           ("title", JStr (title d));
           ("excerpt", JStr (excerpt d));
           ("featuredImage", featuredImage d);
           ("publishDate", JDate (Some (publishDate d)));
           ("slug", JStr (slug d));
           ("category", JStr (category d));
           ("author", author d);
           ("readTime", readTime d);
           ("tags", tags d);
           ("content", JStr (content d));
           ("createdAt", JDate (Some (createdAt d)));
           ("updatedAt", JDate (Some (updatedAt d)));
           ("__v", JNum (__v d))]).

(** The document an insert stores, from its validated paths; [now] is
    the time of the save, which the [timestamps] option records. *)
Definition of_fields (oid : string) (now : Z) (fs : list (string * jsval))
  : option doc :=
  match as_string (lookup "title" fs),
        as_string (lookup "excerpt" fs),
        as_time (lookup "publishDate" fs),
        as_string (lookup "slug" fs),
        as_string (lookup "category" fs),
        as_string (lookup "content" fs) with
  | Some t, Some e, Some p, Some s, Some c, Some b =>
      Some {| _id := oid; title := t; excerpt := e;
              featuredImage := lookup "featuredImage" fs;
              publishDate := p; slug := s; category := c;
              author := lookup "author" fs;
              readTime := lookup "readTime" fs;
              tags := lookup "tags" fs;
              content := b;
              createdAt := now; updatedAt := now; __v := 0 |}
  | _, _, _, _, _, _ => None
  end.

Definition time_at (p : blog_date_path) (d : doc) : Z :=
  match p with
  | blog_publishDate => publishDate d
  | blog_createdAt => createdAt d
  | blog_updatedAt => updatedAt d
  end.

Definition has_slug (s : string) (d : doc) : bool := String.eqb (slug d) s.

End Blog.

(** The state the handlers act on: the two collections, the assets held by
    the media host (their public ids), the clock, and the number of
    document identifiers handed out so far. *)
Record World := {
  gallery : list GalleryImage.doc;
  blogs : list Blog.doc;
  assets : list string;
  clock : Z;
  next_oid : nat
}.

Definition set_gallery (g : list GalleryImage.doc) (w : World) : World :=
  {| gallery := g; blogs := blogs w; assets := assets w;
     clock := clock w; next_oid := next_oid w |}.

Definition set_blogs (b : list Blog.doc) (w : World) : World :=
  {| gallery := gallery w; blogs := b; assets := assets w;
     clock := clock w; next_oid := next_oid w |}.

Definition set_assets (a : list string) (w : World) : World :=
  {| gallery := gallery w; blogs := blogs w; assets := a;
     clock := clock w; next_oid := next_oid w |}.

Definition take_oid (w : World) : World :=
  {| gallery := gallery w; blogs := blogs w; assets := assets w;
     clock := clock w; next_oid := S (next_oid w) |}.

(* ------------------------------------------------------------------ *)
(** ** Query evaluation *)

(** [precedes dir a b]: a document with key [a] may come before one with
    key [b]. *)
Definition precedes (dir : direction) (a b : Z) : bool :=
  match dir with
  | ascending => a <=? b
  | descending => b <=? a
  end.

Fixpoint insert_by {A : Type} (key : A -> Z) (dir : direction)
                   (x : A) (l : list A) : list A :=
  match l with
  | [] => [x]
  | y :: l' =>
      if precedes dir (key x) (key y) then x :: l
      else y :: insert_by key dir x l'
  end.

(** [.sort({ path: dir })] on the documents of a collection. *)
Definition sort_by {A : Type} (key : A -> Z) (dir : direction) (l : list A)
  : list A :=
  fold_right (insert_by key dir) [] l.

(** An inclusive projection keeps the listed paths, and [_id], which is
    returned unless it is excluded by name. *)
Definition project (projection : option (list string)) (d : jsval) : jsval :=
  match projection, d with
  | Some ps, JObj fs =>
      JObj (filter (fun kv => String.eqb (fst kv) "_id"
                              || existsb (String.eqb (fst kv)) ps) fs)
  | _, _ => d
  end.

Fixpoint delete_first {A : Type} (f : A -> bool) (l : list A) : list A :=
  match l with
  | [] => []
  | x :: l' => if f x then l' else x :: delete_first f l'
  end.

Definition or_null {A : Type} (f : A -> jsval) (o : option A) : jsval :=
  match o with
  | Some d => f d
  | None => JNull
  end.

(** What a call does to the state and how it ends when the collaborator
    itself does not fail. *)
Definition exec (lib : Library) (c : call) (w : World) : result * World :=
  match c with
  | GalleryImage_find_sort p dir =>
      (Returned (JArr (map GalleryImage.toObject
                         (sort_by (GalleryImage.time_at p) dir (gallery w)))),
       w)
  | GalleryImage_new obj =>
      (Returned (construct gallerySchema (new_ObjectId lib (next_oid w))
                           (clock w) obj),
       take_oid w)
  | GalleryImage_save d =>
      match as_string (get d "_id"), validate lib gallerySchema d with
      | Some oid, Some fs =>
          match GalleryImage.of_fields oid fs with
          | Some g =>
              (Returned (GalleryImage.toObject g),
               set_gallery (gallery w ++ [g]) w)
          | None => (Raised ValidationError, w)
          end
      | _, _ => (Raised ValidationError, w)
      end
  | GalleryImage_findById id =>
      (Returned (or_null GalleryImage.toObject
                   (find (GalleryImage.has_id id) (gallery w))),
       w)
  | GalleryImage_findByIdAndDelete id =>
      (Returned (or_null GalleryImage.toObject
                   (find (GalleryImage.has_id id) (gallery w))),
       set_gallery (delete_first (GalleryImage.has_id id) (gallery w)) w)
  | cloudinary_uploader_destroy pid =>
      match pid with
      | JStr p =>
          if existsb (String.eqb p) (assets w) then
            (Returned (JObj [("result", JStr "ok")]),
             set_assets (filter (fun a => negb (String.eqb p a)) (assets w)) w)
          else (Returned (JObj [("result", JStr "not found")]), w)
      | _ => (Raised (message "Missing required parameter - public_id"), w)
      end
  | Blog_find_sort projection p dir =>
      (Returned (JArr (map (fun d => project projection (Blog.toObject d))
                         (sort_by (Blog.time_at p) dir (blogs w)))),
       w)
  | Blog_findOne_slug v =>
      match cast lib SchemaString v with
      | None => (Raised CastError, w)
      | Some (JStr s) =>
          (Returned (or_null Blog.toObject (find (Blog.has_slug s) (blogs w))), w)
      | Some _ => (Returned JNull, w)
      end
  | Blog_findOneAndDelete_slug v =>
      match cast lib SchemaString v with
      | None => (Raised CastError, w)
      | Some (JStr s) =>
          (Returned (or_null Blog.toObject (find (Blog.has_slug s) (blogs w))),
           set_blogs (delete_first (Blog.has_slug s) (blogs w)) w)
      | Some _ => (Returned JNull, w)
      end
  | Blog_new obj =>
      (Returned (construct blogSchema (new_ObjectId lib (next_oid w))
                           (clock w) obj),
       take_oid w)
  | Blog_save d =>
      match as_string (get d "_id"), validate lib blogSchema d with
      | Some oid, Some fs =>
          match Blog.of_fields oid (clock w) fs with
          | Some b =>
              (* the unique index on [slug] *)
              if existsb (Blog.has_slug (Blog.slug b)) (blogs w) then
                (Raised DuplicateKeyError, w)
              else (Returned (Blog.toObject b), set_blogs (blogs w ++ [b]) w)
          | None => (Raised ValidationError, w)
          end
      | _, _ => (Raised ValidationError, w)
      end
  | Date_new None => (Returned (JDate (Some (clock w))), w)
  | Date_new (Some v) => (Returned (JDate (new_Date lib v)), w)
  | console_error _ => (Returned JUndefined, w)
  end.

(* ------------------------------------------------------------------ *)
(** ** Running a handler *)

Record outcome (A S : Type) := {
  reply : A;
  final : S;
  trace : list call
}.

Arguments reply {A S} o.
Arguments final {A S} o.
Arguments trace {A S} o.

(** Run a program against an environment [h] with state [S]; the trace
    lists the calls in the order they were issued. *)
Fixpoint interp {S A : Type} (h : call -> S -> result * S)
                (p : prog A) (s : S) : outcome A S :=
  match p with
  | Ret a => {| reply := a; final := s; trace := [] |}
  | Call c k =>
      let rs := h c s in
      let o := interp h (k (fst rs)) (snd rs) in
      {| reply := reply o; final := final o; trace := c :: trace o |}
  end.

(** An environment that answers the [n]-th call as [oracle n] says: no
    assumption on what the collaborators return. *)
Definition answer (oracle : nat -> call -> result) (c : call) (n : nat)
  : result * nat :=
  (oracle n c, S n).

Definition play {A : Type} (oracle : nat -> call -> result) (p : prog A)
  : outcome A nat :=
  interp (answer oracle) p 0%nat.

(** What surrounds the [n]-th awaited call of a request: what the other
    requests and the passing of time do to the state while the call is
    pending, and whether the call rejects (connection lost, identifier
    that does not cast, ...) instead of taking effect. *)
Record step := {
  concurrently : World -> World;
  rejects : option jsval
}.

Definition schedule : Type := nat -> step.

Definition quiet : step := {| concurrently := fun w => w; rejects := None |}.

Definition serve (lib : Library) (sched : schedule) (c : call) (s : nat * World)
  : result * (nat * World) :=
  if awaited c then
    let w := concurrently (sched (fst s)) (snd s) in
    match rejects (sched (fst s)) with
    | Some e => (Raised e, (S (fst s), w))
    | None => (fst (exec lib c w), (S (fst s), snd (exec lib c w)))
    end
  else (fst (exec lib c (snd s)), (fst s, snd (exec lib c (snd s)))).

Definition run {A : Type} (lib : Library) (sched : schedule)
               (p : prog A) (w : World) : outcome A (nat * World) :=
  interp (serve lib sched) p (0%nat, w).

(** The state a request leaves behind. *)
Definition world_after {A : Type} (o : outcome A (nat * World)) : World :=
  snd (final o).

(* ------------------------------------------------------------------ *)
(** ** A library to run the handlers with *)

(** The strictest casts that satisfy [Library]: a value is accepted when it
    already has the type of the path.  [new Date(v)] reads a number as
    milliseconds since the epoch. *)
Definition strict_castString (v : jsval) : option jsval :=
  match v with
  | JStr _ => Some v
  | _ => None
  end.

Definition strict_castNumber (v : jsval) : option jsval :=
  match v with
  | JNum _ => Some v
  | _ => None
  end.

Definition strict_castDate (v : jsval) : option jsval :=
  match v with
  | JDate (Some _) => Some v
  | _ => None
  end.

Definition strict_castStringArray (v : jsval) : option jsval :=
  match v with
  | JArr items =>
      if forallb (fun i => match i with JStr _ => true | _ => false end) items
      then Some v else None
  | _ => None
  end.

Definition strict_new_Date (v : jsval) : option Z :=
  match v with
  | JNum n => Some n
  | JDate t => t
  | _ => None
  end.

Definition decimal_ObjectId (n : nat) : string :=
  NilZero.string_of_uint (Nat.to_uint n).

Definition strict_library : Library :=
  {| new_Date := strict_new_Date;
     new_ObjectId := decimal_ObjectId;
     castString := strict_castString;
     castNumber := strict_castNumber;
     castDate := strict_castDate;
     castStringArray := strict_castStringArray;
     castString_string := fun s => eq_refl;
     castDate_valid := fun t => eq_refl |}.

Definition empty_world : World :=
  {| gallery := []; blogs := []; assets := []; clock := 1700000000000;
     next_oid := 0 |}.

Definition always_quiet : schedule := fun _ => quiet.

(* ------------------------------------------------------------------ *)
(** ** Vocabulary of the properties *)

(** [x] may come before [y] in the result of [.sort({ path: dir })]. *)
Definition in_order {A : Type} (key : A -> Z) (dir : direction) (x y : A) : Prop :=
  precedes dir (key x) (key y) = true.

(** Newest first: every document is at least as recent as the ones after
    it. *)
Definition newest_first {A : Type} (time : A -> Z) (l : list A) : Prop :=
  StronglySorted (fun a b => time b <= time a) l.

(** The [publishDate] of each document of a listing, in the order of the
    listing. *)
Definition listed_publishDates (r : response) : list jsval :=
  match sent r with
  | JArr items => map (fun d => get d "publishDate") items
  | _ => []
  end.

(** The summary an inclusive projection on [title] and [slug] returns. *)
Definition title_slug_summary (d : Blog.doc) : jsval :=
  JObj [("_id", JStr (Blog._id d));
        ("title", JStr (Blog.title d));
        ("slug", JStr (Blog.slug d))].

(* ------------------------------------------------------------------ *)
(** ** Sample data *)

Definition sample_image : GalleryImage.doc :=
  {| GalleryImage._id := "0";
     GalleryImage.src := "https://x/y.jpg";
     GalleryImage.publicId := "gallery/y";
     GalleryImage.alt := JStr "Event Image";
     GalleryImage.createdAt := 1700000000000;
     GalleryImage.__v := 0 |}.

Definition sample_post : Blog.doc :=
  {| Blog._id := "0";
     Blog.title := "First";
     Blog.excerpt := "An excerpt";
     Blog.featuredImage := JUndefined;
     Blog.publishDate := 1700000000000;
     Blog.slug := "a-post";
     Blog.category := "News";
     Blog.author := JStr "Admin";
     Blog.readTime := JNum 4;
     Blog.tags := JArr [JStr "sky"];
     Blog.content := "Text";
     Blog.createdAt := 1700000000000;
     Blog.updatedAt := 1700000000000;
     Blog.__v := 0 |}.

Definition later_post : Blog.doc :=
  {| Blog._id := "1";
     Blog.title := "Second";
     Blog.excerpt := "Another excerpt";
     Blog.featuredImage := JStr "https://x/z.jpg";
     Blog.publishDate := 1700000900000;
     Blog.slug := "b-post";
     Blog.category := "News";
     Blog.author := JStr "Editor";
     Blog.readTime := JUndefined;
     Blog.tags := JArr [];
     Blog.content := "More text";
     Blog.createdAt := 1700000400000;
     Blog.updatedAt := 1700000400000;
     Blog.__v := 0 |}.

(** A store with one image, whose asset the media host holds, and two
    posts. *)
Definition sample_world : World :=
  {| gallery := [sample_image];
     blogs := [sample_post; later_post];
     assets := ["gallery/y"];
     clock := 1700001000000;
     next_oid := 2 |}.

Definition request_for (name value : string) : request :=
  {| params := JObj [(name, JStr value)]; body := JUndefined |}.

Definition request_with (b : jsval) : request :=
  {| params := JObj []; body := b |}.

(** The body of the example of the specification. *)
Definition example_post : list (string * jsval) :=
  [("title", JStr "A"); ("excerpt", JStr "B"); ("category", JStr "C");
   ("content", JStr "D"); ("slug", JStr "fresh-post")].

Definition example_image : list (string * jsval) :=
  [("src", JStr "https://x/w.jpg"); ("publicId", JStr "gallery/w");
   ("createdAt", JNum 5); ("id", JStr "chosen-by-caller")].

(** The media host is unreachable: the second awaited call rejects. *)
Definition media_host_down : schedule :=
  fun n =>
    match n with
    | 1%nat => {| concurrently := fun w => w; rejects := Some (message "timeout") |}
    | _ => quiet
    end.

(** Another request deletes the image between the lookup and the
    deletion. *)
Definition deleted_meanwhile : schedule :=
  fun n =>
    match n with
    | 1%nat => {| concurrently := set_gallery []; rejects := None |}
    | _ => quiet
    end.

(** The media host answers that it holds no such asset, and the deletion
    in the database finds nothing to delete. *)
Definition nothing_deleted (n : nat) (c : call) : result :=
  match c with
  | GalleryImage_findById _ => Returned (GalleryImage.toObject sample_image)
  | cloudinary_uploader_destroy _ => Returned (JObj [("result", JStr "not found")])
  | _ => Returned JNull
  end.

(* ------------------------------------------------------------------ *)
(** ** Vocabulary of the properties of the whole service *)

(** No other request touches the state while this one runs (the awaited
    calls may still reject). *)
Definition calm (sched : schedule) : Prop :=
  forall (n : nat) (w : World), concurrently (sched n) w = w.

(** No two stored posts share a slug. *)
Definition unique_slugs (w : World) : Prop :=
  NoDup (map Blog.slug (blogs w)).

(** The calls that reach the media host. *)
Definition is_media_call (c : call) : bool :=
  match c with
  | cloudinary_uploader_destroy _ => true
  | _ => false
  end.

(** The calls that can change a collection or the media host. *)
Definition is_write_call (c : call) : bool :=
  match c with
  | GalleryImage_save _ | GalleryImage_findByIdAndDelete _
  | cloudinary_uploader_destroy _
  | Blog_save _ | Blog_findOneAndDelete_slug _ => true
  | _ => false
  end.

(** Every call of the program satisfies [allowed], whatever the calls
    before it returned. *)
Inductive issues_only (allowed : call -> bool) {A : Type} : prog A -> Prop :=
| issues_only_Ret : forall a : A, issues_only allowed (Ret a)
| issues_only_Call : forall (c : call) (k : result -> prog A),
    allowed c = true ->
    (forall r : result, issues_only allowed (k r)) ->
    issues_only allowed (Call c k).

(** The [n]-th awaited call rejects with [e]; nothing else happens. *)
Definition failing_at (n : nat) (e : jsval) : schedule :=
  fun m =>
    if Nat.eqb m n
    then {| concurrently := fun w => w; rejects := Some e |}
    else quiet.

(** Another request stores a post with the slug "fresh-post" between the
    lookup and the save (its own save being subject to the unique index
    too). *)
Definition rival_post : Blog.doc :=
  {| Blog._id := "9";
     Blog.title := "Rival";
     Blog.excerpt := "Came first";
     Blog.featuredImage := JUndefined;
     Blog.publishDate := 1700000950000;
     Blog.slug := "fresh-post";
     Blog.category := "News";
     Blog.author := JStr "Admin";
     Blog.readTime := JUndefined;
     Blog.tags := JArr [];
     Blog.content := "Rival text";
     Blog.createdAt := 1700000950000;
     Blog.updatedAt := 1700000950000;
     Blog.__v := 0 |}.

Definition slug_taken_meanwhile : schedule :=
  fun n =>
    match n with
    | 1%nat =>
        {| concurrently :=
             fun w =>
               if existsb (Blog.has_slug (Blog.slug rival_post)) (blogs w)
               then w
               else set_blogs (blogs w ++ [rival_post]) w;
           rejects := None |}
    | _ => quiet
    end.

(* ------------------------------------------------------------------ *)
(** ** Facts about lists and queries *)

Lemma find_none_all {A : Type} (f : A -> bool) (l : list A) :
  (forall x, In x l -> f x = false) -> find f l = None.
Proof.
  induction l as [|a l IH]; simpl; intros H; [reflexivity|].
  rewrite (H a (or_introl eq_refl)). apply IH.
  intros x Hx. apply H. now right.
Qed.

Lemma find_none_existsb {A : Type} (f : A -> bool) (l : list A) :
  find f l = None -> existsb f l = false.
Proof.
  induction l as [|a l IH]; simpl; [reflexivity|].
  destruct (f a); [discriminate|]. exact IH.
Qed.

Lemma delete_first_none {A : Type} (f : A -> bool) (l : list A) :
  find f l = None -> delete_first f l = l.
Proof.
  induction l as [|a l IH]; simpl; [reflexivity|].
  destruct (f a); [discriminate|].
  intros H. now rewrite IH.
Qed.

Lemma precedes_total (dir : direction) (a b : Z) :
  precedes dir a b = false -> precedes dir b a = true.
Proof. destruct dir; simpl; lia. Qed.

Lemma precedes_trans (dir : direction) (a b c : Z) :
  precedes dir a b = true -> precedes dir b c = true -> precedes dir a c = true.
Proof. destruct dir; simpl; lia. Qed.

Section Sorting.

Context {A : Type} (key : A -> Z) (dir : direction).

Lemma insert_by_Permutation (x : A) (l : list A) :
  Permutation (insert_by key dir x l) (x :: l).
Proof.
  induction l as [|y l IH]; simpl; [reflexivity|].
  destruct (precedes dir (key x) (key y)); [reflexivity|].
  rewrite IH. apply perm_swap.
Qed.

Lemma sort_by_Permutation (l : list A) : Permutation (sort_by key dir l) l.
Proof.
  induction l as [|x l IH]; simpl; [reflexivity|].
  unfold sort_by in *. simpl.
  rewrite insert_by_Permutation. now constructor.
Qed.

Lemma insert_by_sorted (x : A) (l : list A) :
  StronglySorted (in_order key dir) l ->
  StronglySorted (in_order key dir) (insert_by key dir x l).
Proof.
  induction 1 as [|y l Hl IH Hy]; simpl.
  - repeat constructor.
  - destruct (precedes dir (key x) (key y)) eqn:E.
    + constructor; [now constructor|].
      constructor; [exact E|].
      rewrite Forall_forall in *. intros z Hz.
      eapply precedes_trans; [exact E|]. now apply Hy.
    + constructor; [exact IH|].
      rewrite Forall_forall in *. intros z Hz.
      apply (Permutation_in _ (insert_by_Permutation x l)) in Hz.
      destruct Hz as [<-|Hz]; [now apply precedes_total | now apply Hy].
Qed.

Lemma sort_by_sorted (l : list A) :
  StronglySorted (in_order key dir) (sort_by key dir l).
Proof.
  induction l as [|x l IH]; [constructor|].
  unfold sort_by in *. simpl. now apply insert_by_sorted.
Qed.

End Sorting.

Lemma sort_by_descending {A : Type} (time : A -> Z) (l : list A) :
  newest_first time (sort_by time descending l).
Proof.
  unfold newest_first.
  eapply StronglySorted_ind with (P := fun l => StronglySorted _ l);
    [constructor | | apply (sort_by_sorted time descending l)].
  intros a l' _ IH Ha. constructor; [exact IH|].
  eapply Forall_impl; [|exact Ha].
  intros b Hb. unfold in_order in Hb. simpl in Hb. lia.
Qed.

Lemma newest_first_map {A : Type} (time : A -> Z) (l : list A) :
  newest_first time l -> newest_first (fun t => t) (map time l).
Proof.
  unfold newest_first. induction 1 as [|a l Hl IH Ha]; simpl; constructor.
  - exact IH.
  - rewrite Forall_forall in *. intros t Ht.
    apply in_map_iff in Ht. destruct Ht as [b [<- Hb]]. now apply Ha.
Qed.

(** There is one way to list given times newest first. *)
Lemma newest_first_unique (l l' : list Z) :
  newest_first (fun t => t) l -> newest_first (fun t => t) l' ->
  Permutation l l' -> l = l'.
Proof.
  unfold newest_first. intros Hl. revert l'.
  induction Hl as [|a l Hl IH Ha]; intros l' Hl' Hperm.
  - apply Permutation_nil in Hperm. now subst.
  - destruct Hl' as [|b l' Hl' Hb].
    + symmetry in Hperm. apply Permutation_nil in Hperm. discriminate.
    + rewrite Forall_forall in Ha, Hb.
      assert (Hab : a = b).
      { assert (Hin : In a (b :: l'))
          by (apply (Permutation_in _ Hperm); now left).
        assert (Hin' : In b (a :: l))
          by (apply (Permutation_in _ (Permutation_sym Hperm)); now left).
        destruct Hin as [Hin|Hin]; [now symmetry|].
        destruct Hin' as [Hin'|Hin']; [assumption|].
        specialize (Ha _ Hin'). specialize (Hb _ Hin). lia. }
      subst b. f_equal. apply IH; [exact Hl'|].
      now apply Permutation_cons_inv in Hperm.
Qed.

Lemma sort_by_times_unique {A : Type} (time : A -> Z) (l l' : list A) :
  Permutation l l' ->
  map time (sort_by time descending l) = map time (sort_by time descending l').
Proof.
  intros Hperm. apply newest_first_unique.
  - apply newest_first_map, sort_by_descending.
  - apply newest_first_map, sort_by_descending.
  - apply Permutation_map.
    rewrite !sort_by_Permutation. exact Hperm.
Qed.

(** Filtering the properties of a document whose [undefined] ones were
    dropped: a property that the filter rejects by name can be skipped. *)
Lemma filter_defined_skip (keep : string -> bool) (k : string) (v : jsval)
      (fs : list (string * jsval)) :
  keep k = false ->
  filter (fun kv => keep (fst kv)) (defined_fields ((k, v) :: fs))
  = filter (fun kv => keep (fst kv)) (defined_fields fs).
Proof.
  intros Hk. unfold defined_fields. simpl.
  destruct v; simpl; rewrite ?Hk; reflexivity.
Qed.

Lemma project_title_slug (d : Blog.doc) :
  project (Some ["title"; "slug"]) (Blog.toObject d) = title_slug_summary d.
Proof.
  unfold project, Blog.toObject, title_slug_summary. f_equal.
  set (keep := fun k : string =>
                 (String.eqb k "_id" || existsb (String.eqb k) ["title"; "slug"])%bool).
  change (filter (fun kv => keep (fst kv))
            (defined_fields
               [("_id", JStr (Blog._id d)); ("title", JStr (Blog.title d));
                ("excerpt", JStr (Blog.excerpt d));
                ("featuredImage", Blog.featuredImage d);
                ("publishDate", JDate (Some (Blog.publishDate d)));
                ("slug", JStr (Blog.slug d));
                ("category", JStr (Blog.category d));
                ("author", Blog.author d); ("readTime", Blog.readTime d);
                ("tags", Blog.tags d); ("content", JStr (Blog.content d));
                ("createdAt", JDate (Some (Blog.createdAt d)));
                ("updatedAt", JDate (Some (Blog.updatedAt d)));
                ("__v", JNum (Blog.__v d))])
          = [("_id", JStr (Blog._id d)); ("title", JStr (Blog.title d));
             ("slug", JStr (Blog.slug d))]).
  assert (keep_cons : forall k v fs, keep k = true -> v <> JUndefined ->
            filter (fun kv => keep (fst kv)) (defined_fields ((k, v) :: fs))
            = (k, v) :: filter (fun kv => keep (fst kv)) (defined_fields fs)).
  { intros k v fs Hk Hv. unfold defined_fields. simpl.
    destruct v; try contradiction; simpl; rewrite Hk; reflexivity. }
  rewrite keep_cons by (reflexivity || discriminate).
  rewrite keep_cons by (reflexivity || discriminate).
  rewrite !(filter_defined_skip keep "excerpt") by reflexivity.
  rewrite !(filter_defined_skip keep "featuredImage") by reflexivity.
  rewrite !(filter_defined_skip keep "publishDate") by reflexivity.
  rewrite keep_cons by (reflexivity || discriminate).
  rewrite !(filter_defined_skip keep "category") by reflexivity.
  rewrite !(filter_defined_skip keep "author") by reflexivity.
  rewrite !(filter_defined_skip keep "readTime") by reflexivity.
  rewrite !(filter_defined_skip keep "tags") by reflexivity.
  rewrite !(filter_defined_skip keep "content") by reflexivity.
  rewrite !(filter_defined_skip keep "createdAt") by reflexivity.
  rewrite !(filter_defined_skip keep "updatedAt") by reflexivity.
  rewrite !(filter_defined_skip keep "__v") by reflexivity.
  reflexivity.
Qed.

Lemma lookup_defined_skip (k k' : string) (v : jsval)
      (fs : list (string * jsval)) :
  String.eqb k k' = false ->
  lookup k (defined_fields ((k', v) :: fs)) = lookup k (defined_fields fs).
Proof.
  intros Hk. unfold defined_fields. simpl.
  destruct v; simpl; rewrite ?Hk; reflexivity.
Qed.

Lemma Blog_toObject_publishDate (d : Blog.doc) :
  get (Blog.toObject d) "publishDate" = JDate (Some (Blog.publishDate d)).
Proof.
  unfold Blog.toObject, get.
  rewrite !lookup_defined_skip by reflexivity. reflexivity.
Qed.

Lemma Blog_toObject_author (d : Blog.doc) :
  Blog.author d <> JUndefined ->
  get (Blog.toObject d) "author" = Blog.author d.
Proof.
  intros Hd. unfold Blog.toObject, get.
  rewrite !lookup_defined_skip by reflexivity.
  unfold defined_fields. simpl.
  destruct (Blog.author d); try contradiction; reflexivity.
Qed.

Lemma GalleryImage_toObject_truthy (g : GalleryImage.doc) :
  truthy (GalleryImage.toObject g) = true.
Proof. reflexivity. Qed.

Lemma GalleryImage_toObject_publicId (g : GalleryImage.doc) :
  get (GalleryImage.toObject g) "publicId" = JStr (GalleryImage.publicId g).
Proof. reflexivity. Qed.

Lemma exec_destroy_returns (lib : Library) (p : string) (w : World) :
  exists r, fst (exec lib (cloudinary_uploader_destroy (JStr p)) w) = Returned r.
Proof.
  simpl. destruct (existsb (String.eqb p) (assets w)); simpl; eauto.
Qed.

Lemma exec_destroy_gallery (lib : Library) (pid : jsval) (w : World) :
  gallery (snd (exec lib (cloudinary_uploader_destroy pid) w)) = gallery w.
Proof.
  simpl. destruct pid; simpl; try reflexivity.
  destruct (existsb (String.eqb s) (assets w)); reflexivity.
Qed.

(* ------------------------------------------------------------------ *)
(** ** Deleting a gallery image *)


(** The calls of a deletion whose lookup found [img]: the lookup, then the
    media-host call with the stored [publicId], then the rest. *)
Lemma delete_trace_shape :
  forall (lib : Library) (sched : schedule) (req : request) (w : World)
         (img : GalleryImage.doc),
    rejects (sched 0%nat) = None ->
    find (GalleryImage.has_id (get (params req) "id"))
         (gallery (concurrently (sched 0%nat) w)) = Some img ->
    exists rest,
      trace (run lib sched (delete_api_gallery_id req) w)
      = GalleryImage_findById (get (params req) "id")
        :: cloudinary_uploader_destroy (JStr (GalleryImage.publicId img))
        :: rest.
Proof.
  intros lib sched req w img Hok Hfound.
  unfold run, delete_api_gallery_id.
  cbn. rewrite Hok. cbn. rewrite Hfound. cbn.
  eexists. reflexivity.
Qed.

(** C1: when the lookup finds a record, the media host is asked to delete
    the asset named by the record's stored [publicId] before any deletion
    in the database is issued, and that deletion follows when the
    media-host call returns; when the media-host call raises, the handler
    answers 500 "Delete failed", issues no deletion in the database, and
    leaves the store as the other requests made it, so the record is still
    there. *)
Theorem C1_asset_deleted_before_record :
  forall (lib : Library) (sched : schedule) (req : request) (w : World)
         (img : GalleryImage.doc),
    rejects (sched 0%nat) = None ->
    find (GalleryImage.has_id (get (params req) "id"))
         (gallery (concurrently (sched 0%nat) w)) = Some img ->
    let id := get (params req) "id" in
    let destroy := cloudinary_uploader_destroy (JStr (GalleryImage.publicId img)) in
    let w0 := concurrently (sched 0%nat) w in
    let w1 := concurrently (sched 1%nat) w0 in
    let o := run lib sched (delete_api_gallery_id req) w in
    (forall pre post,
        trace o = (pre ++ GalleryImage_findByIdAndDelete id :: post)%list ->
        In destroy pre) /\
    (rejects (sched 1%nat) = None ->
     exists rest,
       trace o = GalleryImage_findById id :: destroy
                 :: GalleryImage_findByIdAndDelete id :: rest) /\
    (forall e,
        rejects (sched 1%nat) = Some e ->
        reply o = res_status_json 500 (message "Delete failed") /\
        trace o = [GalleryImage_findById id; destroy; console_error [e]] /\
        world_after o = w1 /\
        (gallery w1 = gallery w0 -> In img (gallery (world_after o)))).
Proof.
  intros lib sched req w img Hok Hfound id destroy w0 w1 o.
  split; [|split].
  - destruct (delete_trace_shape lib sched req w img Hok Hfound) as [rest Hrest].
    intros pre post Htrace. subst o. rewrite Hrest in Htrace.
    destruct pre as [|x [|y pre]]; simpl in Htrace.
    + discriminate.
    + injection Htrace as _ Htrace. discriminate.
    + injection Htrace as _ Hy _. subst y. right. now left.
  - intros H1. subst o id destroy w1 w0.
    unfold run, delete_api_gallery_id.
    cbn -[exec]. rewrite Hok. cbn -[exec].
    change (exec lib (GalleryImage_findById (get (params req) "id"))
                 (concurrently (sched 0%nat) w))
      with (Returned (or_null GalleryImage.toObject
                        (find (GalleryImage.has_id (get (params req) "id"))
                              (gallery (concurrently (sched 0%nat) w)))),
            concurrently (sched 0%nat) w).
    rewrite Hfound. cbn -[exec]. rewrite H1. cbn -[exec].
    destruct (exec_destroy_returns lib (GalleryImage.publicId img)
                (concurrently (sched 1%nat) (concurrently (sched 0%nat) w)))
      as [r Hr].
    rewrite Hr. cbn -[exec]. eexists. reflexivity.
  - intros e He. subst o id destroy w1 w0.
    unfold run, delete_api_gallery_id, world_after.
    cbn. rewrite Hok. cbn. rewrite Hfound. cbn. rewrite He. cbn.
    repeat (split; [reflexivity|]).
    intros Hsame. rewrite Hsame.
    apply (find_some _ _ Hfound).
Qed.

(** C8: the value the media host returns is not looked at.  Whatever the
    lookup returned (as long as it is a record), whatever value [r] the
    media-host call returns without raising, and whatever the final
    deletion returns, the handler goes on to delete the record and answers
    200 "Image deleted successfully". *)
Theorem C8_media_host_result_not_inspected :
  forall (oracle : nat -> call -> result) (req : request) (image r d : jsval),
    oracle 0%nat (GalleryImage_findById (get (params req) "id")) = Returned image ->
    truthy image = true ->
    oracle 1%nat (cloudinary_uploader_destroy (get image "publicId")) = Returned r ->
    oracle 2%nat (GalleryImage_findByIdAndDelete (get (params req) "id")) = Returned d ->
    let o := play oracle (delete_api_gallery_id req) in
    reply o = res_json (message "Image deleted successfully") /\
    trace o = [GalleryImage_findById (get (params req) "id");
               cloudinary_uploader_destroy (get image "publicId");
               GalleryImage_findByIdAndDelete (get (params req) "id")].
Proof.
  intros oracle req image r d H0 Himage H1 H2 o. subst o.
  unfold play, delete_api_gallery_id, answer.
  cbn -[get truthy]. rewrite H0. cbn -[get truthy]. rewrite Himage.
  cbn -[get truthy]. rewrite H1. cbn -[get truthy]. rewrite H2.
  cbn -[get truthy]. auto.
Qed.

(** C9: the value the final deletion returns is not looked at.  When the
    lookup finds a record and neither the media-host call nor the deletion
    raises, the handler answers 200 "Image deleted successfully" whatever
    the other requests did in between; in particular when the record was
    gone by the time of the deletion, which then removes nothing. *)
Theorem C9_final_delete_result_not_inspected :
  forall (lib : Library) (sched : schedule) (req : request) (w : World)
         (img : GalleryImage.doc),
    rejects (sched 0%nat) = None ->
    find (GalleryImage.has_id (get (params req) "id"))
         (gallery (concurrently (sched 0%nat) w)) = Some img ->
    rejects (sched 1%nat) = None ->
    rejects (sched 2%nat) = None ->
    let id := get (params req) "id" in
    let w0 := concurrently (sched 0%nat) w in
    let w1 := snd (exec lib (cloudinary_uploader_destroy
                               (JStr (GalleryImage.publicId img)))
                        (concurrently (sched 1%nat) w0)) in
    let w2 := concurrently (sched 2%nat) w1 in
    let o := run lib sched (delete_api_gallery_id req) w in
    reply o = res_json (message "Image deleted successfully") /\
    trace o = [GalleryImage_findById id;
               cloudinary_uploader_destroy (JStr (GalleryImage.publicId img));
               GalleryImage_findByIdAndDelete id] /\
    world_after o
    = set_gallery (delete_first (GalleryImage.has_id id) (gallery w2)) w2 /\
    (find (GalleryImage.has_id id) (gallery w2) = None ->
     exec lib (GalleryImage_findByIdAndDelete id) w2
     = (Returned JNull, world_after o) /\
     gallery (world_after o) = gallery w2).
Proof.
  intros lib sched req w img H0 Hfound H1 H2 id w0 w1 w2 o.
  subst o w2 w1 w0 id.
  unfold run, delete_api_gallery_id, world_after.
  cbn -[exec]. rewrite H0. cbn -[exec].
  change (exec lib (GalleryImage_findById (get (params req) "id"))
               (concurrently (sched 0%nat) w))
    with (Returned (or_null GalleryImage.toObject
                      (find (GalleryImage.has_id (get (params req) "id"))
                            (gallery (concurrently (sched 0%nat) w)))),
          concurrently (sched 0%nat) w).
  rewrite Hfound. cbn -[exec]. rewrite H1. cbn -[exec].
  destruct (exec_destroy_returns lib (GalleryImage.publicId img)
              (concurrently (sched 1%nat) (concurrently (sched 0%nat) w)))
    as [r Hr].
  rewrite Hr. cbn -[exec]. rewrite H2. cbn.
  repeat (split; [reflexivity|]).
  intros Hgone. cbn in Hgone. split.
  - rewrite Hgone. reflexivity.
  - now rewrite (delete_first_none _ _ Hgone).
Qed.

(* ------------------------------------------------------------------ *)
(** ** Listing blog posts *)

(** C4: when the query does not fail, [GET /api/blogs] answers 200 with
    every stored post (the whole document of each, none left out, none
    added), newest [publishDate] first; and the dates come out in the same
    order from any store that holds the same posts in another order. *)
Theorem C4_list_all_sorted_by_publishDate :
  forall (lib : Library) (sched : schedule) (req : request) (w : World),
    rejects (sched 0%nat) = None ->
    let stored := blogs (concurrently (sched 0%nat) w) in
    let o := run lib sched (get_api_blogs req) w in
    (exists posts,
        reply o = res_json (JArr (map Blog.toObject posts)) /\
        Permutation posts stored /\
        newest_first Blog.publishDate posts /\
        world_after o = concurrently (sched 0%nat) w) /\
    (forall w' : World,
        Permutation (blogs (concurrently (sched 0%nat) w')) stored ->
        listed_publishDates (reply (run lib sched (get_api_blogs req) w'))
        = listed_publishDates (reply o)).
Proof.
  intros lib sched req w Hok stored o. subst o stored.
  split.
  - exists (sort_by Blog.publishDate descending
              (blogs (concurrently (sched 0%nat) w))).
    unfold run, get_api_blogs, world_after.
    cbn. rewrite Hok. cbn.
    repeat split.
    + apply sort_by_Permutation.
    + apply sort_by_descending.
  - intros w' Hperm.
    unfold run, get_api_blogs, listed_publishDates.
    cbn -[get Blog.toObject]. rewrite Hok. cbn -[get Blog.toObject].
    rewrite !map_map.
    rewrite (map_ext _ (fun d => JDate (Some (Blog.publishDate d))))
      by (intros d; apply Blog_toObject_publishDate).
    rewrite (map_ext (fun d => get (Blog.toObject d) "publishDate")
                     (fun d => JDate (Some (Blog.publishDate d))))
      by (intros d; apply Blog_toObject_publishDate).
    rewrite <- !(map_map Blog.publishDate (fun t => JDate (Some t))).
    f_equal. now apply sort_by_times_unique.
Qed.

(** C7, as amended: when the query does not fail, [GET /api/admin/blogs]
    answers 200 with one summary per stored post, holding its [_id],
    [title] and [slug] and nothing else, most recently created first. *)
Theorem C7_admin_list_summaries :
  forall (lib : Library) (sched : schedule) (req : request) (w : World),
    rejects (sched 0%nat) = None ->
    let stored := blogs (concurrently (sched 0%nat) w) in
    let o := run lib sched (get_api_admin_blogs req) w in
    exists posts,
      reply o = res_json (JArr (map title_slug_summary posts)) /\
      Permutation posts stored /\
      newest_first Blog.createdAt posts /\
      Forall (fun d => keys d = ["_id"; "title"; "slug"])
             (map title_slug_summary posts).
Proof.
  intros lib sched req w Hok stored o. subst o stored.
  exists (sort_by Blog.createdAt descending
            (blogs (concurrently (sched 0%nat) w))).
  unfold run, get_api_admin_blogs.
  cbn -[project Blog.toObject]. rewrite Hok. cbn -[project Blog.toObject].
  split; [|split; [|split]].
  - unfold res_json, res_status_json. do 2 f_equal.
    apply map_ext. intros d. apply project_title_slug.
  - apply sort_by_Permutation.
  - apply sort_by_descending.
  - apply Forall_forall. intros d Hd.
    apply in_map_iff in Hd. destruct Hd as [x [<- _]]. reflexivity.
Qed.

(* ------------------------------------------------------------------ *)
(** ** Creating a blog post *)

Lemma post_api_blogs_guard :
  forall (lib : Library) (sched : schedule) (req : request) (w : World),
    nullish (body req) = false ->
    forallb (fun f => truthy (get (body req) f)) required_blog_fields = false ->
    let o := run lib sched (post_api_blogs req) w in
    reply o = res_status_json 400 (message "Missing required fields") /\
    world_after o = w /\
    trace o = [].
Proof.
  intros lib sched req w Hbody Hguard o. subst o.
  unfold run, post_api_blogs, world_after, destructure.
  rewrite Hbody.
  cbn -[get truthy]. cbn -[get truthy] in Hguard.
  destruct (truthy (get (body req) "title"));
    destruct (truthy (get (body req) "excerpt"));
    destruct (truthy (get (body req) "category"));
    destruct (truthy (get (body req) "content"));
    destruct (truthy (get (body req) "slug"));
    try discriminate Hguard; cbn; auto.
Qed.

(** C3: a creation request in which one of [title], [excerpt], [category],
    [content], [slug] is absent or empty answers 400 "Missing required
    fields" without issuing a single call: the store is untouched. *)
Theorem C3_missing_required_field_rejected :
  forall (lib : Library) (sched : schedule) (req : request) (w : World)
         (f : string),
    nullish (body req) = false ->
    In f required_blog_fields ->
    get (body req) f = JUndefined \/ get (body req) f = JStr EmptyString ->
    let o := run lib sched (post_api_blogs req) w in
    reply o = res_status_json 400 (message "Missing required fields") /\
    world_after o = w /\
    trace o = [].
Proof.
  intros lib sched req w f Hbody Hf Hmissing.
  apply post_api_blogs_guard; [exact Hbody|].
  assert (Hfalsy : truthy (get (body req) f) = false)
    by (destruct Hmissing as [-> | ->]; reflexivity).
  apply not_true_is_false. intros Hall.
  rewrite forallb_forall in Hall.
  specialize (Hall f Hf). congruence.
Qed.

Lemma required_fields_truthy (b : jsval) :
  forallb (fun f => truthy (get b f)) required_blog_fields = true ->
  truthy (get b "title") = true /\ truthy (get b "excerpt") = true /\
  truthy (get b "category") = true /\ truthy (get b "content") = true /\
  truthy (get b "slug") = true.
Proof.
  intros H. rewrite forallb_forall in H.
  repeat split; apply H; simpl; tauto.
Qed.

(** C2, as amended: a creation request that passes the required-field
    check and whose slug is the slug of a post stored at the time of the
    lookup answers 409 "Slug already exists"; the lookup is the only call
    issued, so no post is altered and none is added. *)
Theorem C2_duplicate_slug_conflict :
  forall (lib : Library) (sched : schedule) (req : request) (w : World)
         (s : string) (post : Blog.doc),
    nullish (body req) = false ->
    forallb (fun f => truthy (get (body req) f)) required_blog_fields = true ->
    get (body req) "slug" = JStr s ->
    rejects (sched 0%nat) = None ->
    find (Blog.has_slug s) (blogs (concurrently (sched 0%nat) w)) = Some post ->
    let o := run lib sched (post_api_blogs req) w in
    reply o = res_status_json 409 (message "Slug already exists") /\
    world_after o = concurrently (sched 0%nat) w /\
    trace o = [Blog_findOne_slug (JStr s)].
Proof.
  intros lib sched req w s post Hbody Hreq Hslug Hok Hfound o. subst o.
  destruct (required_fields_truthy _ Hreq) as (Ht & He & Hc & Hn & Hs).
  unfold run, post_api_blogs, world_after, destructure.
  rewrite Hbody.
  cbn -[get truthy exec]. rewrite Ht, He, Hc, Hn, Hs.
  cbn -[get truthy exec]. rewrite Hok. cbn -[get truthy exec].
  rewrite Hslug.
  assert (Hexec : exec lib (Blog_findOne_slug (JStr s))
                       (concurrently (sched 0%nat) w)
                  = (Returned (Blog.toObject post), concurrently (sched 0%nat) w)).
  { cbn. rewrite castString_string, Hfound. reflexivity. }
  rewrite Hexec. cbn. auto.
Qed.

Lemma String_nonempty (a : Ascii.ascii) (s : string) : String a s <> EmptyString.
Proof. discriminate. Qed.

Lemma cast_string (lib : Library) (s : string) :
  cast lib SchemaString (JStr s) = Some (JStr s).
Proof. unfold cast. simpl. apply castString_string. Qed.

Lemma cast_date (lib : Library) (t : Z) :
  cast lib SchemaDate (JDate (Some t)) = Some (JDate (Some t)).
Proof. unfold cast. simpl. apply castDate_valid. Qed.

Lemma present_string (s : string) :
  s <> EmptyString -> present SchemaString (JStr s) = true.
Proof. intros H. simpl. now rewrite (proj2 (String.eqb_neq s EmptyString) H). Qed.

Lemma truthy_string (s : string) :
  s <> EmptyString -> truthy (JStr s) = true.
Proof. intros H. simpl. now rewrite (proj2 (String.eqb_neq s EmptyString) H). Qed.

(** Saving a [Blog] document whose required paths hold non-empty strings
    and a valid date, whose other paths cast, and whose slug is free. *)
Lemma exec_Blog_save :
  forall (lib : Library) (w : World) (oid t e s c n : string) (when : Z)
         (fi au rt tg fi' au' rt' tg' : jsval),
    t <> EmptyString -> e <> EmptyString -> s <> EmptyString ->
    c <> EmptyString -> n <> EmptyString ->
    cast lib SchemaString fi = Some fi' ->
    cast lib SchemaString au = Some au' ->
    cast lib SchemaNumber rt = Some rt' ->
    cast lib SchemaStringArray tg = Some tg' ->
    existsb (Blog.has_slug s) (blogs w) = false ->
    let saved :=
      {| Blog._id := oid; Blog.title := t; Blog.excerpt := e;
         Blog.featuredImage := fi'; Blog.publishDate := when;
         Blog.slug := s; Blog.category := c; Blog.author := au';
         Blog.readTime := rt'; Blog.tags := tg'; Blog.content := n;
         Blog.createdAt := clock w; Blog.updatedAt := clock w;
         Blog.__v := 0 |} in
    exec lib (Blog_save
                (JObj [("_id", JStr oid); ("title", JStr t); ("excerpt", JStr e);
                       ("featuredImage", fi);
                       ("publishDate", JDate (Some when));
                       ("slug", JStr s); ("category", JStr c);
                       ("author", au); ("readTime", rt); ("tags", tg);
                       ("content", JStr n)])) w
    = (Returned (Blog.toObject saved), set_blogs (blogs w ++ [saved]) w).
Proof.
  intros lib w oid t e s c n when fi au rt tg fi' au' rt' tg'
         Ht He Hs Hc Hn Hfi Hau Hrt Htg Hfree saved.
  unfold exec, validate.
  cbn -[cast present Blog.toObject Blog.of_fields validate_path].
  unfold validate_path.
  cbn -[cast present Blog.toObject Blog.of_fields].
  rewrite !cast_string, cast_date, Hfi, Hau, Hrt, Htg.
  rewrite !present_string by assumption.
  cbn -[Blog.toObject]. rewrite Hfree. reflexivity.
Qed.

(** X17: a creation request whose five required fields are non-empty
    strings, whose optional fields cast, whose slug is free, and which
    omits [author], is answered 201 with the stored post, whose [author]
    is "Admin".  Its [publishDate] is the time at which the handler ran
    when the request omits [publishDate], and the date the request
    supplies when [publishDate] is truthy and [new Date] makes a valid
    date of it. *)
Theorem X17_blog_create_defaults :
  forall (lib : Library) (sched : schedule) (req : request) (w : World)
         (t e c n s : string) (fi rt tg : jsval) (when : Z),
    let b := body req in
    let w0 := concurrently (sched 0%nat) w in
    let w1 := concurrently (sched 1%nat) (take_oid w0) in
    nullish b = false ->
    get b "title" = JStr t -> t <> EmptyString ->
    get b "excerpt" = JStr e -> e <> EmptyString ->
    get b "category" = JStr c -> c <> EmptyString ->
    get b "content" = JStr n -> n <> EmptyString ->
    get b "slug" = JStr s -> s <> EmptyString ->
    get b "author" = JUndefined ->
    cast lib SchemaString (get b "featuredImage") = Some fi ->
    cast lib SchemaNumber (get b "readTime") = Some rt ->
    cast lib SchemaStringArray (or_default (JArr []) (get b "tags")) = Some tg ->
    (get b "publishDate" = JUndefined /\ when = clock w0) \/
    (truthy (get b "publishDate") = true /\
     new_Date lib (get b "publishDate") = Some when) ->
    rejects (sched 0%nat) = None ->
    find (Blog.has_slug s) (blogs w0) = None ->
    rejects (sched 1%nat) = None ->
    find (Blog.has_slug s) (blogs w1) = None ->
    let saved :=
      {| Blog._id := new_ObjectId lib (next_oid w0);
         Blog.title := t; Blog.excerpt := e; Blog.featuredImage := fi;
         Blog.publishDate := when; Blog.slug := s; Blog.category := c;
         Blog.author := JStr "Admin"; Blog.readTime := rt; Blog.tags := tg;
         Blog.content := n;
         Blog.createdAt := clock w1; Blog.updatedAt := clock w1;
         Blog.__v := 0 |} in
    let o := run lib sched (post_api_blogs req) w in
    reply o = res_status_json 201 (Blog.toObject saved) /\
    world_after o = set_blogs (blogs w1 ++ [saved]) w1 /\
    get (sent (reply o)) "author" = JStr "Admin" /\
    get (sent (reply o)) "publishDate" = JDate (Some when).
Proof.
  intros lib sched req w t e c n s fi rt tg when b w0 w1
         Hbody Ht Ht' He He' Hc Hc' Hn Hn' Hs Hs' Hau Hfi Hrt Htg Hpd
         Hok0 Hfree0 Hok1 Hfree1 saved o.
  subst b w0 w1.
  set (b := body req) in *.
  set (w0 := concurrently (sched 0%nat) w) in *.
  set (w1 := concurrently (sched 1%nat) (take_oid w0)) in *.
  assert (Hdate : exec lib (Date_new (if truthy (get b "publishDate")
                                      then Some (get b "publishDate")
                                      else None)) w0
                  = (Returned (JDate (Some when)), w0)).
  { destruct Hpd as [[Hpd ->] | [Hpd Hnew]]; rewrite Hpd; simpl;
      [reflexivity | now rewrite Hnew]. }
  assert (Hfind : exec lib (Blog_findOne_slug (JStr s)) w0 = (Returned JNull, w0)).
  { cbn -[cast]. rewrite cast_string, Hfree0. reflexivity. }
  assert (Hsave :
    exec lib
      (Blog_save
         (construct blogSchema (new_ObjectId lib (next_oid w0)) (clock w0)
            (JObj [("title", JStr t); ("excerpt", JStr e);
                   ("featuredImage", get b "featuredImage");
                   ("category", JStr c); ("content", JStr n);
                   ("slug", JStr s); ("author", JUndefined);
                   ("readTime", get b "readTime"); ("tags", get b "tags");
                   ("publishDate", JDate (Some when))]))) w1
    = (Returned (Blog.toObject saved), set_blogs (blogs w1 ++ [saved]) w1)).
  { apply exec_Blog_save; try assumption.
    - apply cast_string.
    - now apply find_none_existsb. }
  assert (Hreply : reply o = res_status_json 201 (Blog.toObject saved)
                   /\ world_after o = set_blogs (blogs w1 ++ [saved]) w1).
  { subst o. unfold run, post_api_blogs, world_after, destructure.
    fold b. rewrite Hbody.
    cbn -[get truthy exec construct].
    fold b. rewrite Ht, He, Hc, Hn, Hs.
    rewrite !truthy_string by assumption.
    cbn -[get truthy exec construct].
    rewrite Hok0. fold w0. rewrite Hfind.
    cbn -[get exec construct].
    fold b. rewrite Hdate.
    cbn -[get exec construct].
    fold b. rewrite Hau.
    change (exec lib (Blog_new ?obj) w0)
      with (Returned (construct blogSchema (new_ObjectId lib (next_oid w0))
                        (clock w0) obj), take_oid w0).
    cbn -[get exec construct].
    rewrite Hok1. fold w1. rewrite Hsave. cbn. auto. }
  destruct Hreply as [Hreply Hworld].
  repeat (split; [assumption|]).
  rewrite Hreply. unfold res_status_json, sent. split.
  - now rewrite Blog_toObject_author.
  - now rewrite Blog_toObject_publishDate.
Qed.

(* ------------------------------------------------------------------ *)
(** ** Registering a gallery image *)

(** Saving a [GalleryImage] document whose [src] and [publicId] are
    non-empty strings, whose [alt] casts and whose [createdAt] is a valid
    date. *)
Lemma exec_GalleryImage_save :
  forall (lib : Library) (w : World) (oid s p : string) (at_ : Z)
         (a a' : jsval),
    s <> EmptyString -> p <> EmptyString ->
    cast lib SchemaString a = Some a' ->
    let saved :=
      {| GalleryImage._id := oid; GalleryImage.src := s;
         GalleryImage.publicId := p; GalleryImage.alt := a';
         GalleryImage.createdAt := at_; GalleryImage.__v := 0 |} in
    exec lib (GalleryImage_save
                (JObj [("_id", JStr oid); ("src", JStr s); ("publicId", JStr p);
                       ("alt", a); ("createdAt", JDate (Some at_))])) w
    = (Returned (GalleryImage.toObject saved),
       set_gallery (gallery w ++ [saved]) w).
Proof.
  intros lib w oid s p at_ a a' Hs Hp Ha saved.
  unfold exec, validate.
  cbn -[cast present GalleryImage.toObject GalleryImage.of_fields validate_path].
  unfold validate_path.
  cbn -[cast present GalleryImage.toObject GalleryImage.of_fields].
  rewrite !cast_string, cast_date, Ha.
  rewrite !present_string by assumption.
  reflexivity.
Qed.

Lemma GalleryImage_toObject_createdAt (g : GalleryImage.doc) :
  get (GalleryImage.toObject g) "createdAt"
  = JDate (Some (GalleryImage.createdAt g)).
Proof.
  unfold GalleryImage.toObject, get.
  rewrite !lookup_defined_skip by reflexivity. reflexivity.
Qed.

(** C10: registering an image reads [src], [publicId] and [alt] off the
    body and nothing else: two requests that agree on these three run the
    same program.  When the request is accepted, the document is built
    from these three alone, and the stored record's [createdAt] is the
    time at which the handler built it, whatever else the body holds. *)
Theorem C10_gallery_create_reads_three_fields :
  (forall req req' : request,
      nullish (body req) = false ->
      nullish (body req') = false ->
      get (body req') "src" = get (body req) "src" ->
      get (body req') "publicId" = get (body req) "publicId" ->
      get (body req') "alt" = get (body req) "alt" ->
      post_api_gallery req' = post_api_gallery req) /\
  (forall (lib : Library) (sched : schedule) (req : request) (w : World)
          (s p : string) (a : jsval),
      nullish (body req) = false ->
      get (body req) "src" = JStr s -> s <> EmptyString ->
      get (body req) "publicId" = JStr p -> p <> EmptyString ->
      cast lib SchemaString
           (or_default (JStr "Event Image") (get (body req) "alt")) = Some a ->
      rejects (sched 0%nat) = None ->
      let w0 := concurrently (sched 0%nat) (take_oid w) in
      let obj := JObj [("src", JStr s); ("publicId", JStr p);
                       ("alt", get (body req) "alt")] in
      let saved :=
        {| GalleryImage._id := new_ObjectId lib (next_oid w);
           GalleryImage.src := s; GalleryImage.publicId := p;
           GalleryImage.alt := a;
           GalleryImage.createdAt := clock w; GalleryImage.__v := 0 |} in
      let o := run lib sched (post_api_gallery req) w in
      trace o = [GalleryImage_new obj;
                 GalleryImage_save
                   (construct gallerySchema (new_ObjectId lib (next_oid w))
                              (clock w) obj)] /\
      reply o = res_status_json 201 (GalleryImage.toObject saved) /\
      world_after o = set_gallery (gallery w0 ++ [saved]) w0 /\
      get (sent (reply o)) "createdAt" = JDate (Some (clock w))).
Proof.
  split.
  - intros req req' Hb Hb' Hsrc Hpid Halt.
    unfold post_api_gallery, destructure.
    rewrite Hb, Hb'. cbn -[get truthy].
    rewrite Hsrc, Hpid, Halt. reflexivity.
  - intros lib sched req w s p a Hb Hs Hs' Hp Hp' Ha Hok w0 obj saved o.
    assert (Hsave :
      exec lib
        (GalleryImage_save
           (construct gallerySchema (new_ObjectId lib (next_oid w)) (clock w) obj))
        w0
      = (Returned (GalleryImage.toObject saved),
         set_gallery (gallery w0 ++ [saved]) w0)).
    { apply exec_GalleryImage_save; assumption. }
    assert (Hrun : trace o = [GalleryImage_new obj;
                              GalleryImage_save
                                (construct gallerySchema
                                   (new_ObjectId lib (next_oid w)) (clock w) obj)]
                   /\ reply o = res_status_json 201 (GalleryImage.toObject saved)
                   /\ world_after o = set_gallery (gallery w0 ++ [saved]) w0).
    { subst o. unfold run, post_api_gallery, world_after, destructure.
      rewrite Hb. cbn -[get truthy exec construct].
      rewrite Hs, Hp. rewrite !truthy_string by assumption.
      cbn -[get truthy exec construct].
      change (exec lib (GalleryImage_new ?x) w)
        with (Returned (construct gallerySchema (new_ObjectId lib (next_oid w))
                          (clock w) x), take_oid w).
      cbn -[get truthy exec construct].
      rewrite Hok. fold obj. fold w0. rewrite Hsave. cbn. auto. }
    destruct Hrun as (Htrace & Hreply & Hworld).
    repeat (split; [assumption|]).
    rewrite Hreply. unfold res_status_json, sent.
    now rewrite GalleryImage_toObject_createdAt.
Qed.

(* ------------------------------------------------------------------ *)
(** ** The properties at work on the sample data *)

(** The media host is down while the stored image is being deleted: the
    answer is 500 and the image is still in the collection. *)
Lemma C1_witness :
  reply (run strict_library media_host_down
           (delete_api_gallery_id (request_for "id" "0")) sample_world)
  = res_status_json 500 (message "Delete failed") /\
  trace (run strict_library media_host_down
           (delete_api_gallery_id (request_for "id" "0")) sample_world)
  = [GalleryImage_findById (JStr "0");
     cloudinary_uploader_destroy (JStr "gallery/y");
     console_error [message "timeout"]] /\
  In sample_image
     (gallery (world_after (run strict_library media_host_down
                              (delete_api_gallery_id (request_for "id" "0"))
                              sample_world))).
Proof.
  destruct (C1_asset_deleted_before_record strict_library media_host_down
              (request_for "id" "0") sample_world sample_image eq_refl eq_refl)
    as (_ & _ & H).
  destruct (H (message "timeout") eq_refl) as (Hreply & Htrace & _ & Hin).
  exact (conj Hreply (conj Htrace (Hin eq_refl))).
Defined.

(** The stored slug is posted again, with every required field. *)
Lemma C2_witness :
  reply (run strict_library always_quiet
           (post_api_blogs
              (request_with (JObj (("slug", JStr "a-post") :: example_post))))
           sample_world)
  = res_status_json 409 (message "Slug already exists") /\
  world_after (run strict_library always_quiet
                 (post_api_blogs
                    (request_with (JObj (("slug", JStr "a-post") :: example_post))))
                 sample_world)
  = sample_world /\
  trace (run strict_library always_quiet
           (post_api_blogs
              (request_with (JObj (("slug", JStr "a-post") :: example_post))))
           sample_world)
  = [Blog_findOne_slug (JStr "a-post")].
Proof.
  exact (C2_duplicate_slug_conflict strict_library always_quiet
           (request_with (JObj (("slug", JStr "a-post") :: example_post)))
           sample_world "a-post" sample_post
           eq_refl eq_refl eq_refl eq_refl eq_refl).
Defined.

(** C2 as stated fails: the stored slug is posted with nothing else, and
    the answer is 400, not 409. *)
Lemma C2_counterexample :
  get (body (request_with (JObj [("slug", JStr "a-post")]))) "slug"
  = JStr (Blog.slug sample_post) /\
  In sample_post (blogs sample_world) /\
  reply (run strict_library always_quiet
           (post_api_blogs (request_with (JObj [("slug", JStr "a-post")])))
           sample_world)
  = res_status_json 400 (message "Missing required fields") /\
  status (reply (run strict_library always_quiet
                   (post_api_blogs (request_with (JObj [("slug", JStr "a-post")])))
                   sample_world)) <> 409.
Proof.
  split; [reflexivity|]. split; [now left|]. split; [reflexivity|].
  vm_compute. discriminate.
Qed.

(** The example of the specification without its title. *)
Lemma C3_witness :
  reply (run strict_library always_quiet
           (post_api_blogs (request_with (JObj (tl example_post)))) sample_world)
  = res_status_json 400 (message "Missing required fields") /\
  world_after (run strict_library always_quiet
                 (post_api_blogs (request_with (JObj (tl example_post))))
                 sample_world)
  = sample_world /\
  trace (run strict_library always_quiet
           (post_api_blogs (request_with (JObj (tl example_post)))) sample_world)
  = [].
Proof.
  exact (C3_missing_required_field_rejected strict_library always_quiet
           (request_with (JObj (tl example_post))) sample_world "title"
           eq_refl (or_introl eq_refl) (or_introl eq_refl)).
Defined.

(** The two sample posts, stored oldest first, are listed newest first. *)
Lemma C4_witness :
  (exists posts,
      reply (run strict_library always_quiet
               (get_api_blogs (request_with JUndefined)) sample_world)
      = res_json (JArr (map Blog.toObject posts)) /\
      Permutation posts [sample_post; later_post] /\
      newest_first Blog.publishDate posts /\
      world_after (run strict_library always_quiet
                     (get_api_blogs (request_with JUndefined)) sample_world)
      = sample_world) /\
  listed_publishDates
    (reply (run strict_library always_quiet
              (get_api_blogs (request_with JUndefined))
              (set_blogs [later_post; sample_post] sample_world)))
  = listed_publishDates
      (reply (run strict_library always_quiet
                (get_api_blogs (request_with JUndefined)) sample_world)).
Proof.
  destruct (C4_list_all_sorted_by_publishDate strict_library always_quiet
              (request_with JUndefined) sample_world eq_refl) as [Hlist Horder].
  split; [exact Hlist|].
  apply (Horder (set_blogs [later_post; sample_post] sample_world)).
  apply perm_swap.
Defined.


(** The example of the specification: the post is stored with the author
    "Admin" and the time of the request as its [publishDate]. *)
Lemma X17_witness :
  get (sent (reply (run strict_library always_quiet
                      (post_api_blogs (request_with (JObj example_post)))
                      sample_world))) "author"
  = JStr "Admin" /\
  get (sent (reply (run strict_library always_quiet
                      (post_api_blogs (request_with (JObj example_post)))
                      sample_world))) "publishDate"
  = JDate (Some (clock sample_world)) /\
  status (reply (run strict_library always_quiet
                   (post_api_blogs (request_with (JObj example_post)))
                   sample_world))
  = 201.
Proof.
  destruct (X17_blog_create_defaults strict_library always_quiet
              (request_with (JObj example_post)) sample_world
              "A" "B" "C" "D" "fresh-post" JUndefined JUndefined (JArr [])
              (clock sample_world)
              eq_refl
              eq_refl (String_nonempty _ _)
              eq_refl (String_nonempty _ _)
              eq_refl (String_nonempty _ _)
              eq_refl (String_nonempty _ _)
              eq_refl (String_nonempty _ _)
              eq_refl eq_refl eq_refl eq_refl
              (or_introl (conj eq_refl eq_refl))
              eq_refl eq_refl eq_refl eq_refl)
    as (Hreply & _ & Hauthor & Hdate).
  split; [exact Hauthor|]. split; [exact Hdate|].
  rewrite Hreply. reflexivity.
Defined.

(** C6: the claim has a supplied [publishDate] stored, and the comment on
    the fallback says it is for a date that is not provided.  The handler
    tests the date for truthiness instead: here the request supplies the
    [publishDate] 0, which [new Date] reads as the epoch, it is answered
    201, and the stored post carries the time of the request, not the
    date supplied. *)
Theorem C6_falsy_publishDate_falls_back :
  get (JObj (example_post ++ [("publishDate", JNum 0)])) "publishDate" = JNum 0 /\
  new_Date strict_library (JNum 0) = Some 0 /\
  status (reply (run strict_library always_quiet
                   (post_api_blogs
                      (request_with
                         (JObj (example_post ++ [("publishDate", JNum 0)]))))
                   sample_world))
  = 201 /\
  get (sent (reply (run strict_library always_quiet
                      (post_api_blogs
                         (request_with
                            (JObj (example_post ++ [("publishDate", JNum 0)]))))
                      sample_world))) "publishDate"
  = JDate (Some (clock sample_world)) /\
  JDate (Some (clock sample_world)) <> JDate (Some 0).
Proof.
  repeat (split; [reflexivity|]). discriminate.
Qed.

(** The two sample posts, summarised, most recently created first. *)
Lemma C7_witness :
  exists posts,
    reply (run strict_library always_quiet
             (get_api_admin_blogs (request_with JUndefined)) sample_world)
    = res_json (JArr (map title_slug_summary posts)) /\
    Permutation posts [sample_post; later_post] /\
    newest_first Blog.createdAt posts /\
    Forall (fun d => keys d = ["_id"; "title"; "slug"])
           (map title_slug_summary posts).
Proof.
  exact (C7_admin_list_summaries strict_library always_quiet
           (request_with JUndefined) sample_world eq_refl).
Defined.

(** C7 as stated fails: each summary of the admin list also carries the
    [_id] of the post, so its fields are not only [title] and [slug]. *)
Lemma C7_counterexample :
  sent (reply (run strict_library always_quiet
                 (get_api_admin_blogs (request_with JUndefined)) sample_world))
  = JArr [JObj [("_id", JStr "1"); ("title", JStr "Second"); ("slug", JStr "b-post")];
          JObj [("_id", JStr "0"); ("title", JStr "First"); ("slug", JStr "a-post")]] /\
  keys (JObj [("_id", JStr "1"); ("title", JStr "Second"); ("slug", JStr "b-post")])
  <> ["title"; "slug"].
Proof.
  split; [reflexivity|]. discriminate.
Qed.

(** The media host reports "not found" and the record is deleted all the
    same. *)
Lemma C8_witness :
  reply (play nothing_deleted (delete_api_gallery_id (request_for "id" "0")))
  = res_json (message "Image deleted successfully") /\
  trace (play nothing_deleted (delete_api_gallery_id (request_for "id" "0")))
  = [GalleryImage_findById (JStr "0");
     cloudinary_uploader_destroy (JStr "gallery/y");
     GalleryImage_findByIdAndDelete (JStr "0")].
Proof.
  exact (C8_media_host_result_not_inspected nothing_deleted
           (request_for "id" "0") (GalleryImage.toObject sample_image)
           (JObj [("result", JStr "not found")]) JNull
           eq_refl eq_refl eq_refl eq_refl).
Defined.

(** Another request empties the gallery after the lookup: the deletion
    removes nothing and the answer is still the confirmation. *)
Lemma C9_witness :
  reply (run strict_library deleted_meanwhile
           (delete_api_gallery_id (request_for "id" "0")) sample_world)
  = res_json (message "Image deleted successfully") /\
  gallery (world_after (run strict_library deleted_meanwhile
                          (delete_api_gallery_id (request_for "id" "0"))
                          sample_world))
  = [].
Proof.
  destruct (C9_final_delete_result_not_inspected strict_library deleted_meanwhile
              (request_for "id" "0") sample_world sample_image
              eq_refl eq_refl eq_refl eq_refl)
    as (Hreply & _ & _ & Hgone).
  destruct (Hgone eq_refl) as [_ Hgallery].
  exact (conj Hreply Hgallery).
Defined.

(** The caller's own [createdAt] and [id] leave no mark on the stored
    image. *)
Lemma C10_witness :
  reply (run strict_library always_quiet
           (post_api_gallery (request_with (JObj example_image))) sample_world)
  = res_status_json 201
      (GalleryImage.toObject
         {| GalleryImage._id := "2";
            GalleryImage.src := "https://x/w.jpg";
            GalleryImage.publicId := "gallery/w";
            GalleryImage.alt := JStr "Event Image";
            GalleryImage.createdAt := clock sample_world;
            GalleryImage.__v := 0 |}) /\
  get (sent (reply (run strict_library always_quiet
                      (post_api_gallery (request_with (JObj example_image)))
                      sample_world))) "createdAt"
  = JDate (Some (clock sample_world)).
Proof.
  destruct (proj2 C10_gallery_create_reads_three_fields
              strict_library always_quiet
              (request_with (JObj example_image)) sample_world
              "https://x/w.jpg" "gallery/w" (JStr "Event Image")
              eq_refl
              eq_refl (String_nonempty _ _)
              eq_refl (String_nonempty _ _)
              eq_refl eq_refl)
    as (_ & Hreply & _ & Hcreated).
  exact (conj Hreply Hcreated).
Defined.

(* ------------------------------------------------------------------ *)
(** ** Further runs *)

(** A deletion that goes through: the asset leaves the media host, then
    the record leaves the collection. *)
Example delete_stored_image :
  reply (run strict_library always_quiet
           (delete_api_gallery_id (request_for "id" "0")) sample_world)
  = res_json (message "Image deleted successfully") /\
  world_after (run strict_library always_quiet
                 (delete_api_gallery_id (request_for "id" "0")) sample_world)
  = set_assets [] (set_gallery [] sample_world).
Proof. split; reflexivity. Qed.

(** A truthy [publishDate] that [new Date] accepts is the one stored. *)
Example supplied_publishDate_is_stored :
  get (sent (reply (run strict_library always_quiet
                      (post_api_blogs
                         (request_with
                            (JObj (example_post
                                   ++ [("publishDate", JNum 1600000000000)]))))
                      sample_world))) "publishDate"
  = JDate (Some 1600000000000).
Proof. reflexivity. Qed.

(** A [publishDate] that [new Date] cannot read makes the save fail. *)
Example unreadable_publishDate_fails :
  reply (run strict_library always_quiet
           (post_api_blogs
              (request_with
                 (JObj (example_post ++ [("publishDate", JStr "soon")]))))
           sample_world)
  = res_status_json 500 (message "Failed to create blog").
Proof. reflexivity. Qed.

(** The example of the specification: no [publicId], no record. *)
Example image_without_publicId :
  reply (run strict_library always_quiet
           (post_api_gallery
              (request_with (JObj [("src", JStr "https://x/y.jpg")])))
           sample_world)
  = res_status_json 400 (message "Missing image data") /\
  world_after (run strict_library always_quiet
                 (post_api_gallery
                    (request_with (JObj [("src", JStr "https://x/y.jpg")])))
                 sample_world)
  = sample_world.
Proof. split; reflexivity. Qed.

(** A body that was not parsed makes the destructuring throw. *)
Example unparsed_body :
  reply (run strict_library always_quiet
           (post_api_blogs (request_with JUndefined)) sample_world)
  = res_status_json 500 (message "Failed to create blog").
Proof. reflexivity. Qed.

(* ------------------------------------------------------------------ *)
(** ** The rest of the service: reading *)

Lemma set_blogs_same (w : World) : set_blogs (blogs w) w = w.
Proof. now destruct w. Qed.

Lemma set_gallery_same (w : World) : set_gallery (gallery w) w = w.
Proof. now destruct w. Qed.

Lemma Blog_toObject_truthy (d : Blog.doc) : truthy (Blog.toObject d) = true.
Proof. reflexivity. Qed.

Lemma Blog_toObject_slug (d : Blog.doc) :
  get (Blog.toObject d) "slug" = JStr (Blog.slug d).
Proof.
  unfold Blog.toObject, get.
  rewrite !lookup_defined_skip by reflexivity. reflexivity.
Qed.

(** What [Blog.findOne({ slug })] does on a string. *)
Lemma exec_Blog_findOne_slug (lib : Library) (s : string) (w : World) :
  exec lib (Blog_findOne_slug (JStr s)) w
  = (Returned (or_null Blog.toObject (find (Blog.has_slug s) (blogs w))), w).
Proof. cbn -[cast]. now rewrite cast_string. Qed.

Lemma exec_Blog_findOneAndDelete_slug (lib : Library) (s : string) (w : World) :
  exec lib (Blog_findOneAndDelete_slug (JStr s)) w
  = (Returned (or_null Blog.toObject (find (Blog.has_slug s) (blogs w))),
     set_blogs (delete_first (Blog.has_slug s) (blogs w)) w).
Proof. cbn -[cast]. now rewrite cast_string. Qed.

(** X1: when the query does not fail, [GET /api/gallery] answers 200 with
    every stored image, none left out and none added, most recently
    created first, and leaves the store alone. *)
Theorem X1_gallery_list_newest_first :
  forall (lib : Library) (sched : schedule) (req : request) (w : World),
    rejects (sched 0%nat) = None ->
    let o := run lib sched (get_api_gallery req) w in
    exists images,
      reply o = res_json (JArr (map GalleryImage.toObject images)) /\
      Permutation images (gallery (concurrently (sched 0%nat) w)) /\
      newest_first GalleryImage.createdAt images /\
      world_after o = concurrently (sched 0%nat) w.
Proof.
  intros lib sched req w Hok o. subst o.
  exists (sort_by GalleryImage.createdAt descending
            (gallery (concurrently (sched 0%nat) w))).
  unfold run, get_api_gallery, world_after.
  cbn. rewrite Hok. cbn.
  repeat split.
  - apply sort_by_Permutation.
  - apply sort_by_descending.
Qed.

(** X2: when its query rejects, each of the four reading routes answers
    500 with its own message, issues no other call, and leaves the store
    as the other requests made it. *)
Theorem X2_reading_routes_answer_500 :
  forall (lib : Library) (sched : schedule) (req : request) (w : World)
         (e : jsval),
    rejects (sched 0%nat) = Some e ->
    let w0 := concurrently (sched 0%nat) w in
    (reply (run lib sched (get_api_gallery req) w)
     = res_status_json 500 (message "Failed to fetch images") /\
     world_after (run lib sched (get_api_gallery req) w) = w0 /\
     trace (run lib sched (get_api_gallery req) w)
     = [GalleryImage_find_sort gallery_createdAt descending]) /\
    (reply (run lib sched (get_api_blogs req) w)
     = res_status_json 500 (message "Failed to fetch blogs") /\
     world_after (run lib sched (get_api_blogs req) w) = w0 /\
     trace (run lib sched (get_api_blogs req) w)
     = [Blog_find_sort None blog_publishDate descending]) /\
    (reply (run lib sched (get_api_blogs_slug req) w)
     = res_status_json 500 (message "Error fetching blog") /\
     world_after (run lib sched (get_api_blogs_slug req) w) = w0 /\
     trace (run lib sched (get_api_blogs_slug req) w)
     = [Blog_findOne_slug (get (params req) "slug")]) /\
    (reply (run lib sched (get_api_admin_blogs req) w)
     = res_status_json 500 (message "Failed to fetch blog list") /\
     world_after (run lib sched (get_api_admin_blogs req) w) = w0 /\
     trace (run lib sched (get_api_admin_blogs req) w)
     = [Blog_find_sort (Some ["title"; "slug"]) blog_createdAt
                       descending]).
Proof.
  intros lib sched req w e He w0. subst w0.
  unfold run, world_after, get_api_gallery, get_api_blogs, get_api_blogs_slug,
    get_api_admin_blogs.
  cbn -[exec]. rewrite He. cbn. repeat split.
Qed.

(** X3: when the query does not fail, [GET /api/blogs/:slug] answers 200
    with the whole stored post of that slug, and 404 "Blog not found" when
    no stored post has it; either way the store is left alone. *)
Theorem X3_blog_by_slug :
  forall (lib : Library) (sched : schedule) (req : request) (w : World)
         (s : string),
    get (params req) "slug" = JStr s ->
    rejects (sched 0%nat) = None ->
    let w0 := concurrently (sched 0%nat) w in
    let o := run lib sched (get_api_blogs_slug req) w in
    reply o
    = match find (Blog.has_slug s) (blogs w0) with
      | Some post => res_json (Blog.toObject post)
      | None => res_status_json 404 (message "Blog not found")
      end /\
    world_after o = w0 /\
    trace o = [Blog_findOne_slug (JStr s)].
Proof.
  intros lib sched req w s Hslug Hok w0 o. subst o w0.
  unfold run, get_api_blogs_slug, world_after.
  rewrite Hslug. cbn -[exec]. rewrite Hok.
  rewrite exec_Blog_findOne_slug.
  destruct (find (Blog.has_slug s) (blogs (concurrently (sched 0%nat) w)));
    cbn; auto.
Qed.

(* ------------------------------------------------------------------ *)
(** ** The rest of the service: deleting a blog post *)

Lemma delete_first_incl {A : Type} (f : A -> bool) (l : list A) (x : A) :
  In x (delete_first f l) -> In x l.
Proof.
  induction l as [|a l IH]; simpl; [tauto|].
  destruct (f a); simpl; [tauto|]. intros [H|H]; [now left | right; now apply IH].
Qed.

Lemma delete_first_keeps {A : Type} (f : A -> bool) (l : list A) (x : A) :
  In x l -> f x = false -> In x (delete_first f l).
Proof.
  induction l as [|a l IH]; simpl; [tauto|].
  intros [->|Hx] Hf.
  - rewrite Hf. now left.
  - destruct (f a); [exact Hx|]. right. now apply IH.
Qed.

Lemma delete_first_NoDup {A B : Type} (g : A -> B) (f : A -> bool) (l : list A) :
  NoDup (map g l) -> NoDup (map g (delete_first f l)).
Proof.
  induction l as [|a l IH]; simpl; intros H; [constructor|].
  inversion H as [|x xs Hnotin Hrest]; subst.
  destruct (f a); [exact Hrest|].
  simpl. constructor; [|now apply IH].
  intros Hin. apply Hnotin.
  apply in_map_iff in Hin. destruct Hin as [y [Hy Hin]].
  apply in_map_iff. exists y. split; [exact Hy|].
  now apply delete_first_incl in Hin.
Qed.

Lemma has_slug_true (s : string) (d : Blog.doc) :
  Blog.has_slug s d = true -> Blog.slug d = s.
Proof. unfold Blog.has_slug. apply String.eqb_eq. Qed.

Lemma delete_first_slug_gone (s : string) (l : list Blog.doc) :
  NoDup (map Blog.slug l) ->
  find (Blog.has_slug s) (delete_first (Blog.has_slug s) l) = None.
Proof.
  induction l as [|a l IH]; simpl; intros H; [reflexivity|].
  inversion H as [|x xs Hnotin Hrest]; subst.
  destruct (Blog.has_slug s a) eqn:E.
  - apply find_none_all. intros d Hd.
    destruct (Blog.has_slug s d) eqn:E'; [|reflexivity].
    exfalso. apply Hnotin.
    apply has_slug_true in E. apply has_slug_true in E'.
    rewrite E, <- E'. now apply in_map.
  - simpl. rewrite E. now apply IH.
Qed.

(** X4: when the call does not fail, [DELETE /api/blogs/slug/:slug]
    removes the stored post of that slug and confirms, keeping every post
    of another slug; when no stored post has the slug it answers 404 "Blog
    not found" and changes nothing.  With unique slugs no post of that
    slug is left. *)
Theorem X4_delete_blog_by_slug :
  forall (lib : Library) (sched : schedule) (req : request) (w : World)
         (s : string),
    get (params req) "slug" = JStr s ->
    rejects (sched 0%nat) = None ->
    let w0 := concurrently (sched 0%nat) w in
    let o := run lib sched (delete_api_blogs_slug_slug req) w in
    (forall post,
        find (Blog.has_slug s) (blogs w0) = Some post ->
        reply o = res_json (message "Blog deleted successfully") /\
        length (blogs (world_after o)) = Nat.pred (length (blogs w0))) /\
    (find (Blog.has_slug s) (blogs w0) = None ->
     reply o = res_status_json 404 (message "Blog not found") /\
     world_after o = w0) /\
    (forall d, In d (blogs w0) -> Blog.slug d <> s -> In d (blogs (world_after o))) /\
    (forall d, In d (blogs (world_after o)) -> In d (blogs w0)) /\
    (unique_slugs w0 ->
     find (Blog.has_slug s) (blogs (world_after o)) = None) /\
    gallery (world_after o) = gallery w0 /\
    assets (world_after o) = assets w0.
Proof.
  intros lib sched req w s Hslug Hok w0 o.
  assert (Hrun : reply o
                 = (match find (Blog.has_slug s) (blogs w0) with
                    | Some _ => res_json (message "Blog deleted successfully")
                    | None => res_status_json 404 (message "Blog not found")
                    end)
                 /\ world_after o
                    = set_blogs (delete_first (Blog.has_slug s) (blogs w0)) w0).
  { subst o w0. unfold run, delete_api_blogs_slug_slug, world_after.
    rewrite Hslug. cbn -[exec]. rewrite Hok.
    rewrite exec_Blog_findOneAndDelete_slug.
    destruct (find (Blog.has_slug s) (blogs (concurrently (sched 0%nat) w)));
      cbn; auto. }
  destruct Hrun as [Hreply Hworld].
  rewrite Hreply, Hworld. cbn [blogs gallery assets set_blogs].
  repeat split.
  - now rewrite H.
  - clear - H. revert H. induction (blogs w0) as [|a l IH]; simpl; [discriminate|].
    destruct (Blog.has_slug s a); [reflexivity|].
    intros H. simpl. rewrite IH by exact H.
    destruct l; [discriminate H | reflexivity].
  - now rewrite H.
  - rewrite (delete_first_none _ _ H). apply set_blogs_same.
  - intros d Hd Hne. apply delete_first_keeps; [exact Hd|].
    unfold Blog.has_slug. now apply String.eqb_neq.
  - intros d. apply delete_first_incl.
  - apply delete_first_slug_gone.
Qed.

(* ------------------------------------------------------------------ *)
(** ** The rest of the service: what a creation leaves behind *)

(** X5: a registration whose [src] or [publicId] is falsy (absent, null,
    empty) is answered 400 "Missing image data" without a single call:
    nothing is stored. *)
Theorem X5_gallery_missing_image_data :
  forall (lib : Library) (sched : schedule) (req : request) (w : World),
    nullish (body req) = false ->
    truthy (get (body req) "src") = false \/
    truthy (get (body req) "publicId") = false ->
    let o := run lib sched (post_api_gallery req) w in
    reply o = res_status_json 400 (message "Missing image data") /\
    world_after o = w /\
    trace o = [].
Proof.
  intros lib sched req w Hb Hmissing o. subst o.
  unfold run, post_api_gallery, world_after, destructure.
  rewrite Hb. cbn -[get truthy].
  destruct Hmissing as [H|H]; rewrite H;
    destruct (truthy (get (body req) "src")); cbn; auto.
Qed.

(** Saving the document [new GalleryImage] built: it is stored with the
    identifier and the creation time the constructor gave it, or the save
    raises and stores nothing. *)
Lemma exec_GalleryImage_save_constructed :
  forall (lib : Library) (w : World) (oid : string) (now : Z) (obj : jsval),
    (exists e,
        exec lib (GalleryImage_save (construct gallerySchema oid now
                                        (JObj [("src", get obj "src");
                                               ("publicId", get obj "publicId");
                                               ("alt", get obj "alt")]))) w
        = (Raised e, w)) \/
    (exists g,
        exec lib (GalleryImage_save (construct gallerySchema oid now
                                        (JObj [("src", get obj "src");
                                               ("publicId", get obj "publicId");
                                               ("alt", get obj "alt")]))) w
        = (Returned (GalleryImage.toObject g),
           set_gallery (gallery w ++ [g]) w) /\
        GalleryImage._id g = oid /\
        GalleryImage.createdAt g = now /\
        cast lib SchemaString (get obj "src") = Some (JStr (GalleryImage.src g)) /\
        cast lib SchemaString (get obj "publicId")
        = Some (JStr (GalleryImage.publicId g)) /\
        cast lib SchemaString (or_default (JStr "Event Image") (get obj "alt"))
        = Some (GalleryImage.alt g)).
Proof.
  intros lib w oid now obj.
  unfold exec, validate.
  cbn -[cast present GalleryImage.toObject GalleryImage.of_fields validate_path].
  unfold validate_path.
  cbn -[cast present GalleryImage.toObject or_default].
  change (or_default (JDate (Some now)) JUndefined) with (JDate (Some now)).
  rewrite cast_date.
  destruct (cast lib SchemaString (get obj "src")) as [s|] eqn:Hs;
    [|left; eexists; reflexivity].
  destruct (present SchemaString s) eqn:Hps;
    [|left; eexists; reflexivity].
  destruct (cast lib SchemaString (get obj "publicId")) as [p|] eqn:Hp;
    [|left; eexists; reflexivity].
  destruct (present SchemaString p) eqn:Hpp;
    [|left; eexists; reflexivity].
  destruct (cast lib SchemaString (or_default (JStr "Event Image") (get obj "alt")))
    as [a|] eqn:Ha; [|left; eexists; reflexivity].
  destruct s; try discriminate Hps. destruct p; try discriminate Hpp.
  cbn. right. eexists. split; [reflexivity|]. cbn. auto.
Qed.

(** X6: under any rejections of the awaited calls, with no other request
    interfering, a registration is all or nothing.  Either it is answered
    201: then exactly one record was appended to the gallery, it is the
    one sent back, its [_id] is the one the server generated and its
    [createdAt] is the server's time.  Or it is answered 400 or 500 and
    the gallery is as before.  Posts and assets are never touched. *)
Theorem X6_gallery_create_all_or_nothing :
  forall (lib : Library) (sched : schedule) (req : request) (w : World),
    calm sched ->
    let o := run lib sched (post_api_gallery req) w in
    ((exists g,
         reply o = res_status_json 201 (GalleryImage.toObject g) /\
         gallery (world_after o) = (gallery w ++ [g])%list /\
         GalleryImage._id g = new_ObjectId lib (next_oid w) /\
         GalleryImage.createdAt g = clock w) \/
     ((status (reply o) = 400 \/ status (reply o) = 500) /\
      gallery (world_after o) = gallery w)) /\
    blogs (world_after o) = blogs w /\
    assets (world_after o) = assets w.
Proof.
  intros lib sched req w Hcalm o. subst o.
  unfold run, post_api_gallery, world_after, destructure.
  destruct (nullish (body req)) eqn:Hb.
  { cbn. split; [right|]; auto. }
  cbn -[get truthy exec construct].
  destruct (negb (truthy (get (body req) "src"))
            || negb (truthy (get (body req) "publicId")))%bool.
  { cbn. split; [right|]; auto. }
  cbn -[get truthy exec construct].
  change (exec lib (GalleryImage_new ?x) w)
    with (Returned (construct gallerySchema (new_ObjectId lib (next_oid w))
                      (clock w) x), take_oid w).
  cbn -[get truthy exec construct].
  rewrite Hcalm.
  destruct (rejects (sched 0%nat)) as [e|].
  { cbn. split; [right|]; auto. }
  destruct (exec_GalleryImage_save_constructed lib (take_oid w)
              (new_ObjectId lib (next_oid w)) (clock w) (body req))
    as [[e He] | [g (Hg & Hid & Hat & _)]].
  - rewrite He. cbn. split; [right|]; auto.
  - rewrite Hg. cbn. split; [left|]; eauto.
Qed.

Lemma GalleryImage_toObject_alt (g : GalleryImage.doc) :
  GalleryImage.alt g <> JUndefined ->
  get (GalleryImage.toObject g) "alt" = GalleryImage.alt g.
Proof.
  intros Hd. unfold GalleryImage.toObject, get.
  rewrite !lookup_defined_skip by reflexivity.
  unfold defined_fields. simpl.
  destruct (GalleryImage.alt g); try contradiction; reflexivity.
Qed.

(** An accepted registration, step by step. *)
Lemma post_api_gallery_created :
  forall (lib : Library) (sched : schedule) (req : request) (w : World)
         (s p : string) (a : jsval),
    nullish (body req) = false ->
    get (body req) "src" = JStr s -> s <> EmptyString ->
    get (body req) "publicId" = JStr p -> p <> EmptyString ->
    cast lib SchemaString
         (or_default (JStr "Event Image") (get (body req) "alt")) = Some a ->
    rejects (sched 0%nat) = None ->
    reply (run lib sched (post_api_gallery req) w)
    = res_status_json 201
        (GalleryImage.toObject
           {| GalleryImage._id := new_ObjectId lib (next_oid w);
              GalleryImage.src := s; GalleryImage.publicId := p;
              GalleryImage.alt := a;
              GalleryImage.createdAt := clock w; GalleryImage.__v := 0 |}).
Proof.
  intros lib sched req w s p a Hb Hs Hs' Hp Hp' Ha Hok.
  unfold run, post_api_gallery, destructure.
  rewrite Hb. cbn -[get truthy exec construct].
  rewrite Hs, Hp. rewrite !truthy_string by assumption.
  cbn -[get truthy exec construct].
  change (exec lib (GalleryImage_new ?x) w)
    with (Returned (construct gallerySchema (new_ObjectId lib (next_oid w))
                      (clock w) x), take_oid w).
  cbn -[get truthy exec construct].
  rewrite Hok.
  assert (Hsave :
    exec lib
      (GalleryImage_save
         (construct gallerySchema (new_ObjectId lib (next_oid w)) (clock w)
            (JObj [("src", JStr s); ("publicId", JStr p);
                   ("alt", get (body req) "alt")])))
      (concurrently (sched 0%nat) (take_oid w))
    = (Returned
         (GalleryImage.toObject
            {| GalleryImage._id := new_ObjectId lib (next_oid w);
               GalleryImage.src := s; GalleryImage.publicId := p;
               GalleryImage.alt := a;
               GalleryImage.createdAt := clock w; GalleryImage.__v := 0 |}),
       set_gallery
         (gallery (concurrently (sched 0%nat) (take_oid w))
          ++ [{| GalleryImage._id := new_ObjectId lib (next_oid w);
                 GalleryImage.src := s; GalleryImage.publicId := p;
                 GalleryImage.alt := a;
                 GalleryImage.createdAt := clock w; GalleryImage.__v := 0 |}])
         (concurrently (sched 0%nat) (take_oid w))))
    by (apply exec_GalleryImage_save; assumption).
  rewrite Hsave. reflexivity.
Qed.

(** X7: an accepted registration stores the placeholder "Event Image" as
    [alt] when the request omits it, the supplied text when it gives one,
    and [null] when it gives [null]: the default applies to an absent
    value only. *)
Theorem X7_gallery_alt_default :
  forall (lib : Library) (sched : schedule) (req : request) (w : World)
         (s p : string),
    nullish (body req) = false ->
    get (body req) "src" = JStr s -> s <> EmptyString ->
    get (body req) "publicId" = JStr p -> p <> EmptyString ->
    rejects (sched 0%nat) = None ->
    let o := run lib sched (post_api_gallery req) w in
    (get (body req) "alt" = JUndefined ->
     status (reply o) = 201 /\
     get (sent (reply o)) "alt" = JStr "Event Image") /\
    (forall a, get (body req) "alt" = JStr a ->
     status (reply o) = 201 /\ get (sent (reply o)) "alt" = JStr a) /\
    (get (body req) "alt" = JNull ->
     status (reply o) = 201 /\ get (sent (reply o)) "alt" = JNull).
Proof.
  intros lib sched req w s p Hb Hs Hs' Hp Hp' Hok o. subst o.
  split; [|split].
  - intros Ha.
    rewrite (post_api_gallery_created lib sched req w s p (JStr "Event Image"))
      by (try assumption; rewrite Ha; apply cast_string).
    split; [reflexivity|].
    unfold res_status_json, sent. now rewrite GalleryImage_toObject_alt.
  - intros a Ha.
    rewrite (post_api_gallery_created lib sched req w s p (JStr a))
      by (try assumption; rewrite Ha; apply cast_string).
    split; [reflexivity|].
    unfold res_status_json, sent. now rewrite GalleryImage_toObject_alt.
  - intros Ha.
    rewrite (post_api_gallery_created lib sched req w s p JNull)
      by (try assumption; rewrite Ha; reflexivity).
    split; [reflexivity|].
    unfold res_status_json, sent. now rewrite GalleryImage_toObject_alt.
Qed.

(** Saving any [Blog] document: one post is appended, whose slug no stored
    post had, or the save raises and stores nothing. *)
Lemma exec_Blog_save_cases :
  forall (lib : Library) (doc : jsval) (w : World),
    (exists e, exec lib (Blog_save doc) w = (Raised e, w)) \/
    (exists b,
        exec lib (Blog_save doc) w
        = (Returned (Blog.toObject b), set_blogs (blogs w ++ [b]) w) /\
        existsb (Blog.has_slug (Blog.slug b)) (blogs w) = false).
Proof.
  intros lib doc w. unfold exec.
  destruct (as_string (get doc "_id")) as [oid|];
    [|left; eexists; reflexivity].
  destruct (validate lib blogSchema doc) as [fs|];
    [|left; eexists; reflexivity].
  destruct (Blog.of_fields oid (clock w) fs) as [b|];
    [|left; eexists; reflexivity].
  destruct (existsb (Blog.has_slug (Blog.slug b)) (blogs w)) eqn:E;
    [left; eexists; reflexivity|].
  right. exists b. split; [reflexivity | exact E].
Qed.

Lemma exec_Blog_findOne_any (lib : Library) (v : jsval) (w : World) :
  exists r, exec lib (Blog_findOne_slug v) w = (r, w).
Proof.
  unfold exec. destruct (cast lib SchemaString v) as [[]|]; eexists; reflexivity.
Qed.

Lemma exec_Date_new_any (lib : Library) (a : option jsval) (w : World) :
  exists d, exec lib (Date_new a) w = (Returned d, w).
Proof. destruct a; eexists; reflexivity. Qed.

(** A creation with no other request interfering, whatever the request
    and whichever awaited calls reject. *)
Lemma post_api_blogs_outcomes :
  forall (lib : Library) (sched : schedule) (req : request) (w : World),
    calm sched ->
    let o := run lib sched (post_api_blogs req) w in
    ((exists b,
         reply o = res_status_json 201 (Blog.toObject b) /\
         blogs (world_after o) = (blogs w ++ [b])%list /\
         existsb (Blog.has_slug (Blog.slug b)) (blogs w) = false) \/
     ((status (reply o) = 400 \/ status (reply o) = 409 \/ status (reply o) = 500) /\
      blogs (world_after o) = blogs w)) /\
    gallery (world_after o) = gallery w /\
    assets (world_after o) = assets w.
Proof.
  intros lib sched req w Hcalm o. subst o.
  unfold run, post_api_blogs, world_after, destructure.
  destruct (nullish (body req)) eqn:Hb.
  { cbn. split; [right|]; auto. }
  cbn -[get truthy exec construct].
  match goal with
  | |- context [if ?g then _ else _] => destruct g
  end.
  { cbn. split; [right|]; auto. }
  cbn -[get truthy exec construct].
  rewrite Hcalm.
  destruct (rejects (sched 0%nat)) as [e|].
  { cbn. split; [right|]; auto. }
  destruct (exec_Blog_findOne_any lib (get (body req) "slug") w) as [r Hr].
  rewrite Hr. cbn -[get truthy exec construct].
  destruct r as [v|e]; cbn -[get truthy exec construct];
    [|split; [right|]; auto].
  destruct (truthy v); cbn -[get truthy exec construct];
    [split; [right|]; auto|].
  match goal with
  | |- context [exec lib (Date_new ?a) w] =>
      destruct (exec_Date_new_any lib a w) as [d Hd]
  end.
  rewrite Hd. cbn -[get truthy exec construct].
  change (exec lib (Blog_new ?x) w)
    with (Returned (construct blogSchema (new_ObjectId lib (next_oid w))
                      (clock w) x), take_oid w).
  cbn -[get truthy exec construct].
  rewrite Hcalm.
  destruct (rejects (sched 1%nat)) as [e|].
  { cbn. split; [right|]; auto. }
  match goal with
  | |- context [exec lib (Blog_save ?doc) (take_oid w)] =>
      destruct (exec_Blog_save_cases lib doc (take_oid w))
        as [[e He] | [b [Hsave Hfree]]]
  end.
  - rewrite He. cbn. split; [right|]; auto.
  - rewrite Hsave. cbn. split; [left|]; eauto.
Qed.

Lemma find_app_fresh {A : Type} (f : A -> bool) (l : list A) (x : A) :
  existsb f l = false -> f x = true -> find f (l ++ [x]) = Some x.
Proof.
  induction l as [|a l IH]; simpl; intros Hl Hx.
  - now rewrite Hx.
  - apply orb_false_iff in Hl. destruct Hl as [Ha Hl].
    rewrite Ha. now apply IH.
Qed.

Lemma existsb_false_not_in (s : string) (l : list Blog.doc) :
  existsb (Blog.has_slug s) l = false -> ~ In s (map Blog.slug l).
Proof.
  intros H Hin. apply in_map_iff in Hin. destruct Hin as [d [Hd Hin]].
  assert (Hex : existsb (Blog.has_slug s) l = true).
  { apply existsb_exists. exists d. split; [exact Hin|].
    unfold Blog.has_slug. now apply String.eqb_eq. }
  congruence.
Qed.

Lemma NoDup_slugs_snoc (l : list Blog.doc) (b : Blog.doc) :
  NoDup (map Blog.slug l) ->
  existsb (Blog.has_slug (Blog.slug b)) l = false ->
  NoDup (map Blog.slug (l ++ [b])).
Proof.
  intros Hl Hb. rewrite map_app. simpl.
  apply NoDup_app; [exact Hl | repeat constructor; tauto |].
  intros x Hx [<-|[]]. now apply (existsb_false_not_in _ _ Hb).
Qed.

(** X8: with no other request interfering, a creation is all or nothing,
    whatever the request and whichever awaited calls reject.  Either it
    is answered 201: then exactly one post was appended, it is the one
    sent back, and no stored post had its slug, so unique slugs stay
    unique.  Or it is answered 400, 409 or 500 and the posts are as
    before.  Images and assets are never touched. *)
Theorem X8_blog_create_all_or_nothing :
  forall (lib : Library) (sched : schedule) (req : request) (w : World),
    calm sched ->
    let o := run lib sched (post_api_blogs req) w in
    ((exists b,
         reply o = res_status_json 201 (Blog.toObject b) /\
         blogs (world_after o) = (blogs w ++ [b])%list /\
         ~ In (Blog.slug b) (map Blog.slug (blogs w))) \/
     ((status (reply o) = 400 \/ status (reply o) = 409 \/ status (reply o) = 500) /\
      blogs (world_after o) = blogs w)) /\
    (unique_slugs w -> unique_slugs (world_after o)) /\
    gallery (world_after o) = gallery w /\
    assets (world_after o) = assets w.
Proof.
  intros lib sched req w Hcalm o.
  destruct (post_api_blogs_outcomes lib sched req w Hcalm)
    as ([(b & Hreply & Hblogs & Hfree) | (Hstatus & Hblogs)] & Hgallery & Hassets);
    fold o in Hreply || fold o in Hstatus; fold o in Hblogs, Hgallery, Hassets.
  - split; [left; exists b; repeat split; try assumption;
            now apply existsb_false_not_in|].
    split; [|now split].
    unfold unique_slugs. rewrite Hblogs. intros Hu.
    now apply NoDup_slugs_snoc.
  - split; [right; now split|].
    split; [|now split].
    unfold unique_slugs. now rewrite Hblogs.
Qed.

(** X9: a post that was answered 201 can be read back.  With no other
    request interfering, [GET /api/blogs/:slug] with the slug of the
    reply answers 200 with the very document the creation sent, and
    [GET /api/blogs] lists that document. *)
Theorem X9_created_post_is_read_back :
  forall (lib : Library) (sched sched' : schedule) (req req' : request)
         (w : World),
    calm sched -> calm sched' ->
    rejects (sched' 0%nat) = None ->
    let o := run lib sched (post_api_blogs req) w in
    status (reply o) = 201 ->
    get (params req') "slug" = get (sent (reply o)) "slug" ->
    reply (run lib sched' (get_api_blogs_slug req') (world_after o))
    = res_json (sent (reply o)) /\
    exists items,
      sent (reply (run lib sched' (get_api_blogs req') (world_after o)))
      = JArr items /\
      In (sent (reply o)) items.
Proof.
  intros lib sched sched' req req' w Hcalm Hcalm' Hok o H201 Hslug.
  destruct (post_api_blogs_outcomes lib sched req w Hcalm)
    as ([(b & Hreply & Hblogs & Hfree) | (Hstatus & _)] & _);
    fold o in Hreply || fold o in Hstatus.
  2: { rewrite H201 in Hstatus. destruct Hstatus as [H|[H|H]]; discriminate. }
  fold o in Hblogs.
  rewrite Hreply in Hslug |- *. unfold res_status_json, sent in Hslug |- *.
  rewrite Blog_toObject_slug in Hslug.
  split.
  - unfold run, get_api_blogs_slug. rewrite Hslug.
    cbn -[exec]. rewrite Hok, Hcalm'.
    rewrite exec_Blog_findOne_slug. fold (world_after o). rewrite Hblogs.
    rewrite (find_app_fresh _ _ b Hfree)
      by (unfold Blog.has_slug; apply String.eqb_refl).
    reflexivity.
  - unfold run, get_api_blogs.
    cbn -[Blog.toObject]. rewrite Hok, Hcalm'. cbn -[Blog.toObject].
    eexists. split; [reflexivity|].
    apply in_map.
    apply (Permutation_in _ (Permutation_sym (sort_by_Permutation _ _ _))).
    fold (world_after o). rewrite Hblogs. apply in_or_app. right. now left.
Qed.

(* ------------------------------------------------------------------ *)
(** ** The rest of the service: the two steps of a gallery deletion *)

Lemma exec_GalleryImage_findById (lib : Library) (id : jsval) (w : World) :
  exec lib (GalleryImage_findById id) w
  = (Returned (or_null GalleryImage.toObject
                 (find (GalleryImage.has_id id) (gallery w))), w).
Proof. reflexivity. Qed.

(** Once the media host has answered, it no longer holds the asset. *)
Lemma exec_destroy_removes (lib : Library) (p : string) (w : World) :
  existsb (String.eqb p)
          (assets (snd (exec lib (cloudinary_uploader_destroy (JStr p)) w)))
  = false.
Proof.
  simpl. destruct (existsb (String.eqb p) (assets w)) eqn:E; simpl; [|exact E].
  clear E. induction (assets w) as [|a l IH]; simpl; [reflexivity|].
  destruct (String.eqb p a) eqn:Ea; simpl; [exact IH|].
  rewrite Ea. exact IH.
Qed.

Lemma exec_destroy_blogs (lib : Library) (pid : jsval) (w : World) :
  blogs (snd (exec lib (cloudinary_uploader_destroy pid) w)) = blogs w.
Proof.
  simpl. destruct pid; simpl; try reflexivity.
  destruct (existsb (String.eqb s) (assets w)); reflexivity.
Qed.

Lemma has_id_true (id : jsval) (d : GalleryImage.doc) :
  GalleryImage.has_id id d = true -> id = JStr (GalleryImage._id d).
Proof.
  unfold GalleryImage.has_id. destruct id; try discriminate.
  intros H. apply String.eqb_eq in H. now subst.
Qed.

Lemma delete_first_id_gone (id : jsval) (l : list GalleryImage.doc) :
  NoDup (map GalleryImage._id l) ->
  find (GalleryImage.has_id id) (delete_first (GalleryImage.has_id id) l) = None.
Proof.
  induction l as [|a l IH]; simpl; intros H; [reflexivity|].
  inversion H as [|x xs Hnotin Hrest]; subst.
  destruct (GalleryImage.has_id id a) eqn:E.
  - apply find_none_all. intros d Hd.
    destruct (GalleryImage.has_id id d) eqn:E'; [|reflexivity].
    exfalso. apply Hnotin.
    apply has_id_true in E. apply has_id_true in E'.
    assert (Heq : GalleryImage._id a = GalleryImage._id d) by congruence.
    rewrite Heq. now apply in_map.
  - simpl. rewrite E. now apply IH.
Qed.

(** The run of a deletion whose lookup and media-host call went through,
    with no other request interfering. *)
Lemma delete_api_gallery_id_after_destroy :
  forall (lib : Library) (sched : schedule) (req : request) (w : World)
         (img : GalleryImage.doc),
    calm sched ->
    rejects (sched 0%nat) = None ->
    find (GalleryImage.has_id (get (params req) "id")) (gallery w) = Some img ->
    rejects (sched 1%nat) = None ->
    let id := get (params req) "id" in
    let destroy := cloudinary_uploader_destroy (JStr (GalleryImage.publicId img)) in
    let w1 := snd (exec lib destroy w) in
    let o := run lib sched (delete_api_gallery_id req) w in
    match rejects (sched 2%nat) with
    | Some e =>
        reply o = res_status_json 500 (message "Delete failed") /\
        trace o = [GalleryImage_findById id; destroy;
                   GalleryImage_findByIdAndDelete id; console_error [e]] /\
        world_after o = w1
    | None =>
        reply o = res_json (message "Image deleted successfully") /\
        trace o = [GalleryImage_findById id; destroy;
                   GalleryImage_findByIdAndDelete id] /\
        world_after o
        = set_gallery (delete_first (GalleryImage.has_id id) (gallery w1)) w1
    end.
Proof.
  intros lib sched req w img Hcalm H0 Hfound H1 id destroy w1 o.
  subst o w1 destroy id.
  unfold run, delete_api_gallery_id, world_after.
  cbn -[exec]. rewrite H0, Hcalm.
  rewrite exec_GalleryImage_findById, Hfound.
  cbn -[exec]. rewrite H1, Hcalm.
  destruct (exec_destroy_returns lib (GalleryImage.publicId img) w) as [r Hr].
  rewrite Hr. cbn -[exec]. rewrite Hcalm.
  destruct (rejects (sched 2%nat)) as [e|]; cbn; auto.
Qed.

(** X10: the gap between the two steps.  When the lookup finds the record
    and the media host deletes the asset, but the deletion in the
    database then rejects, the handler answers 500 "Delete failed": the
    record is still in the gallery while the media host no longer holds
    its asset. *)
Theorem X10_delete_fails_after_asset_is_gone :
  forall (lib : Library) (sched : schedule) (req : request) (w : World)
         (img : GalleryImage.doc) (e : jsval),
    calm sched ->
    rejects (sched 0%nat) = None ->
    find (GalleryImage.has_id (get (params req) "id")) (gallery w) = Some img ->
    rejects (sched 1%nat) = None ->
    rejects (sched 2%nat) = Some e ->
    let o := run lib sched (delete_api_gallery_id req) w in
    reply o = res_status_json 500 (message "Delete failed") /\
    trace o = [GalleryImage_findById (get (params req) "id");
               cloudinary_uploader_destroy (JStr (GalleryImage.publicId img));
               GalleryImage_findByIdAndDelete (get (params req) "id");
               console_error [e]] /\
    gallery (world_after o) = gallery w /\
    In img (gallery (world_after o)) /\
    ~ In (GalleryImage.publicId img) (assets (world_after o)).
Proof.
  intros lib sched req w img e Hcalm H0 Hfound H1 H2 o.
  pose proof (delete_api_gallery_id_after_destroy lib sched req w img
                Hcalm H0 Hfound H1) as H.
  cbv zeta in H. rewrite H2 in H. fold o in H.
  destruct H as (Hreply & Htrace & Hworld).
  rewrite Hreply, Htrace, Hworld, exec_destroy_gallery.
  repeat (split; [reflexivity|]).
  split; [apply (find_some _ _ Hfound)|].
  intros Hin.
  pose proof (exec_destroy_removes lib (GalleryImage.publicId img) w) as Hgone.
  assert (Hex : existsb (String.eqb (GalleryImage.publicId img))
                  (assets (snd (exec lib (cloudinary_uploader_destroy
                                            (JStr (GalleryImage.publicId img))) w)))
                = true).
  { apply existsb_exists. eexists. split; [exact Hin | apply String.eqb_refl]. }
  congruence.
Qed.

(** X11: a deletion that goes through, with no other request interfering,
    removes both halves: the media host no longer holds the asset, the
    gallery has one record less and, identifiers being unique, no record
    of that id; the other records and the posts are kept. *)
Theorem X11_delete_removes_record_and_asset :
  forall (lib : Library) (sched : schedule) (req : request) (w : World)
         (img : GalleryImage.doc),
    calm sched ->
    rejects (sched 0%nat) = None ->
    find (GalleryImage.has_id (get (params req) "id")) (gallery w) = Some img ->
    rejects (sched 1%nat) = None ->
    rejects (sched 2%nat) = None ->
    let id := get (params req) "id" in
    let o := run lib sched (delete_api_gallery_id req) w in
    reply o = res_json (message "Image deleted successfully") /\
    ~ In (GalleryImage.publicId img) (assets (world_after o)) /\
    gallery (world_after o) = delete_first (GalleryImage.has_id id) (gallery w) /\
    (NoDup (map GalleryImage._id (gallery w)) ->
     find (GalleryImage.has_id id) (gallery (world_after o)) = None) /\
    (forall g, In g (gallery w) -> GalleryImage.has_id id g = false ->
               In g (gallery (world_after o))) /\
    blogs (world_after o) = blogs w.
Proof.
  intros lib sched req w img Hcalm H0 Hfound H1 H2 id o.
  pose proof (delete_api_gallery_id_after_destroy lib sched req w img
                Hcalm H0 Hfound H1) as H.
  cbv zeta in H. rewrite H2 in H. fold o id in H.
  destruct H as (Hreply & _ & Hworld).
  rewrite Hreply, Hworld. cbn [gallery assets blogs set_gallery].
  rewrite exec_destroy_gallery, exec_destroy_blogs.
  split; [reflexivity|]. split; [|repeat split].
  - intros Hin.
    pose proof (exec_destroy_removes lib (GalleryImage.publicId img) w) as Hgone.
    assert (Hex : existsb (String.eqb (GalleryImage.publicId img))
                    (assets (snd (exec lib (cloudinary_uploader_destroy
                                              (JStr (GalleryImage.publicId img))) w)))
                  = true).
    { apply existsb_exists. eexists. split; [exact Hin | apply String.eqb_refl]. }
    congruence.
  - apply delete_first_id_gone.
  - intros g Hg Hne. now apply delete_first_keeps.
Qed.

(** X12: a deletion whose first call rejects deletes nothing.  For a
    gallery image the answer is 500 "Delete failed" and the media host is
    not called; for a blog post the same answer, and the posts are as the
    other requests made them. *)
Theorem X12_rejected_first_call_deletes_nothing :
  forall (lib : Library) (sched : schedule) (req : request) (w : World)
         (e : jsval),
    rejects (sched 0%nat) = Some e ->
    let w0 := concurrently (sched 0%nat) w in
    (reply (run lib sched (delete_api_gallery_id req) w)
     = res_status_json 500 (message "Delete failed") /\
     trace (run lib sched (delete_api_gallery_id req) w)
     = [GalleryImage_findById (get (params req) "id"); console_error [e]] /\
     world_after (run lib sched (delete_api_gallery_id req) w) = w0) /\
    (reply (run lib sched (delete_api_blogs_slug_slug req) w)
     = res_status_json 500 (message "Delete failed") /\
     trace (run lib sched (delete_api_blogs_slug_slug req) w)
     = [Blog_findOneAndDelete_slug (get (params req) "slug")] /\
     world_after (run lib sched (delete_api_blogs_slug_slug req) w) = w0).
Proof.
  intros lib sched req w e He w0. subst w0.
  unfold run, world_after, delete_api_gallery_id, delete_api_blogs_slug_slug.
  cbn -[exec]. rewrite He. cbn. repeat split.
Qed.

(* ------------------------------------------------------------------ *)
(** ** The rest of the service: which calls a route can make *)

Lemma issues_only_trace {A S : Type} (allowed : call -> bool) (p : prog A) :
  issues_only allowed p ->
  forall (h : call -> S -> result * S) (s : S),
    Forall (fun c => allowed c = true) (trace (interp h p s)).
Proof.
  induction 1 as [a | c k Hc Hk IH]; intros h s; simpl.
  - constructor.
  - constructor; [exact Hc | apply IH].
Qed.

Ltac issues_step :=
  first
    [ apply issues_only_Ret
    | apply issues_only_Call;
      [ reflexivity | intros [?|?]; cbn -[get truthy nullish] ]
    | match goal with
      | |- context [if ?g then _ else _] =>
          destruct g; cbn -[get truthy nullish]
      end ].

Ltac issues := cbn -[get truthy nullish]; repeat issues_step.

Lemma reading_routes_issue_reads (req : request) :
  issues_only (fun c => negb (is_write_call c)) (get_root req) /\
  issues_only (fun c => negb (is_write_call c)) (get_api_gallery req) /\
  issues_only (fun c => negb (is_write_call c)) (get_api_blogs req) /\
  issues_only (fun c => negb (is_write_call c)) (get_api_blogs_slug req) /\
  issues_only (fun c => negb (is_write_call c)) (get_api_admin_blogs req).
Proof.
  unfold get_root, get_api_gallery, get_api_blogs, get_api_blogs_slug,
    get_api_admin_blogs.
  repeat split; issues.
Qed.

Lemma other_routes_spare_media_host (req : request) :
  issues_only (fun c => negb (is_media_call c)) (post_api_gallery req) /\
  issues_only (fun c => negb (is_media_call c)) (post_api_blogs req) /\
  issues_only (fun c => negb (is_media_call c)) (delete_api_blogs_slug_slug req).
Proof.
  unfold post_api_gallery, post_api_blogs, delete_api_blogs_slug_slug,
    destructure.
  repeat split; issues.
Qed.

(** X13: the five [GET] routes never issue a call that can change a
    collection or the media host (no save, no deletion, no asset
    removal), whatever the request and whatever the collaborators
    answer. *)
Theorem X13_reading_routes_never_write :
  forall (S : Type) (h : call -> S -> result * S) (s : S) (req : request)
         (c : call),
    In c (trace (interp h (get_root req) s)) \/
    In c (trace (interp h (get_api_gallery req) s)) \/
    In c (trace (interp h (get_api_blogs req) s)) \/
    In c (trace (interp h (get_api_blogs_slug req) s)) \/
    In c (trace (interp h (get_api_admin_blogs req) s)) ->
    is_write_call c = false.
Proof.
  intros S h s req c Hin.
  destruct (reading_routes_issue_reads req) as (H1 & H2 & H3 & H4 & H5).
  apply negb_true_iff.
  destruct Hin as [Hin|[Hin|[Hin|[Hin|Hin]]]];
    [ pose proof (issues_only_trace _ _ H1 h s) as HF
    | pose proof (issues_only_trace _ _ H2 h s) as HF
    | pose proof (issues_only_trace _ _ H3 h s) as HF
    | pose proof (issues_only_trace _ _ H4 h s) as HF
    | pose proof (issues_only_trace _ _ H5 h s) as HF ];
    rewrite Forall_forall in HF; exact (HF c Hin).
Qed.

(** X14: only the deletion of a gallery image reaches the media host.
    Registering an image, creating a post and deleting a post never call
    [cloudinary.uploader.destroy], whatever the request and whatever the
    collaborators answer; neither do the [GET] routes. *)
Theorem X14_only_gallery_deletion_reaches_media_host :
  forall (S : Type) (h : call -> S -> result * S) (s : S) (req : request)
         (c : call),
    In c (trace (interp h (post_api_gallery req) s)) \/
    In c (trace (interp h (post_api_blogs req) s)) \/
    In c (trace (interp h (delete_api_blogs_slug_slug req) s)) \/
    In c (trace (interp h (get_root req) s)) \/
    In c (trace (interp h (get_api_gallery req) s)) \/
    In c (trace (interp h (get_api_blogs req) s)) \/
    In c (trace (interp h (get_api_blogs_slug req) s)) \/
    In c (trace (interp h (get_api_admin_blogs req) s)) ->
    is_media_call c = false.
Proof.
  intros S h s req c Hin.
  destruct (other_routes_spare_media_host req) as (H1 & H2 & H3).
  destruct (reading_routes_issue_reads req) as (H4 & H5 & H6 & H7 & H8).
  assert (Hread : is_write_call c = false -> is_media_call c = false)
    by (destruct c; simpl; congruence).
  destruct Hin as [Hin|[Hin|[Hin|Hin]]].
  - pose proof (issues_only_trace _ _ H1 h s) as HF.
    rewrite Forall_forall in HF. apply negb_true_iff. exact (HF c Hin).
  - pose proof (issues_only_trace _ _ H2 h s) as HF.
    rewrite Forall_forall in HF. apply negb_true_iff. exact (HF c Hin).
  - pose proof (issues_only_trace _ _ H3 h s) as HF.
    rewrite Forall_forall in HF. apply negb_true_iff. exact (HF c Hin).
  - apply Hread, negb_true_iff.
    destruct Hin as [Hin|[Hin|[Hin|[Hin|Hin]]]];
      [ pose proof (issues_only_trace _ _ H4 h s) as HF
      | pose proof (issues_only_trace _ _ H5 h s) as HF
      | pose proof (issues_only_trace _ _ H6 h s) as HF
      | pose proof (issues_only_trace _ _ H7 h s) as HF
      | pose proof (issues_only_trace _ _ H8 h s) as HF ];
      rewrite Forall_forall in HF; exact (HF c Hin).
Qed.

(* ------------------------------------------------------------------ *)
(** ** The rest of the service: unique slugs *)

Lemma interp_invariant {S A : Type} (h : call -> S -> result * S)
      (I : S -> Prop) :
  (forall c s, I s -> I (snd (h c s))) ->
  forall (p : prog A) (s : S), I s -> I (final (interp h p s)).
Proof.
  intros Hstep. induction p as [a | c k IH]; intros s Hs; simpl.
  - exact Hs.
  - apply IH. now apply Hstep.
Qed.

Lemma exec_keeps_unique_slugs (lib : Library) (c : call) (w : World) :
  unique_slugs w -> unique_slugs (snd (exec lib c w)).
Proof.
  unfold unique_slugs. intros Hu.
  destruct c; try exact Hu.
  - (* GalleryImage_save *)
    unfold exec.
    destruct (as_string (get doc "_id")); [|exact Hu].
    destruct (validate lib gallerySchema doc); [|exact Hu].
    destruct (GalleryImage.of_fields s l); exact Hu.
  - (* cloudinary_uploader_destroy *)
    now rewrite exec_destroy_blogs.
  - (* Blog_findOne_slug *)
    destruct (exec_Blog_findOne_any lib slug w) as [r Hr]. now rewrite Hr.
  - (* Blog_findOneAndDelete_slug *)
    unfold exec. destruct (cast lib SchemaString slug) as [[]|]; try exact Hu.
    simpl. now apply delete_first_NoDup.
  - (* Blog_save *)
    destruct (exec_Blog_save_cases lib doc w) as [[e He] | [b [Hb Hfree]]].
    + now rewrite He.
    + rewrite Hb. simpl. now apply NoDup_slugs_snoc.
  - (* Date_new *)
    destruct arg; exact Hu.
Qed.

(** X15: slugs stay unique.  Whatever calls a request makes, in whatever
    order and whichever of them reject, if no two stored posts share a
    slug before it and the other requests keep it so, no two stored posts
    share a slug after it: the unique index of the schema refuses the
    save that would break it.  Every route is such a program. *)
Theorem X15_slugs_stay_unique :
  forall (A : Type) (lib : Library) (sched : schedule) (p : prog A) (w : World),
    unique_slugs w ->
    (forall n w', unique_slugs w' -> unique_slugs (concurrently (sched n) w')) ->
    unique_slugs (world_after (run lib sched p w)).
Proof.
  intros A lib sched p w Hu Henv.
  unfold world_after, run.
  apply (interp_invariant (serve lib sched) (fun s => unique_slugs (snd s)));
    [|exact Hu].
  intros c [n w'] Hw'. unfold serve. simpl in *.
  destruct (awaited c).
  - destruct (rejects (sched n)); simpl.
    + now apply Henv.
    + apply exec_keeps_unique_slugs. now apply Henv.
  - simpl. now apply exec_keeps_unique_slugs.
Qed.

Lemma validate_path_key (lib : Library) (doc : jsval) (p : schema_path)
      (f : string * jsval) :
  validate_path lib doc p = Some f -> fst f = path p.
Proof.
  unfold validate_path.
  destruct (cast lib (path_type p) (get doc (path p))); [|discriminate].
  destruct (required p && negb (present (path_type p) j))%bool; [discriminate|].
  intros H. injection H as <-. reflexivity.
Qed.

(** A validated [Blog] document keeps a string slug as it is. *)
Lemma validate_keeps_slug (lib : Library) (doc : jsval) (s : string)
      (fs : list (string * jsval)) :
  get doc "slug" = JStr s ->
  validate lib blogSchema doc = Some fs ->
  lookup "slug" fs = JStr s.
Proof.
  intros Hslug. unfold validate.
  cbn [validate_paths paths blogSchema].
  repeat match goal with
         | |- context [validate_path lib doc ?p] =>
             let f := fresh "f" in
             let E := fresh "E" in
             destruct (validate_path lib doc p) as [f|] eqn:E;
             [|intros; discriminate]
         end.
  intros H. injection H as <-.
  repeat match goal with
         | E : validate_path lib doc {| path := "slug" |} = Some _ |- _ =>
             unfold validate_path in E; cbn [path path_type required] in E;
             rewrite Hslug, cast_string in E;
             destruct (true && negb (present SchemaString (JStr s)))%bool;
             [discriminate E|]; injection E as <-
         | E : validate_path lib doc _ = Some ?f |- _ =>
             apply validate_path_key in E; destruct f; simpl in E; subst
         end.
  reflexivity.
Qed.

Lemma of_fields_slug (oid : string) (now : Z) (fs : list (string * jsval))
      (s : string) (b : Blog.doc) :
  lookup "slug" fs = JStr s ->
  Blog.of_fields oid now fs = Some b ->
  Blog.slug b = s.
Proof.
  intros Hslug. unfold Blog.of_fields. rewrite Hslug.
  destruct (as_string (lookup "title" fs)); [|discriminate].
  destruct (as_string (lookup "excerpt" fs)); [|discriminate].
  destruct (as_time (lookup "publishDate" fs)); [|discriminate].
  simpl.
  destruct (as_string (lookup "category" fs)); [|discriminate].
  destruct (as_string (lookup "content" fs)); [|discriminate].
  intros H. injection H as <-. reflexivity.
Qed.

(** Saving a document whose slug a stored post already has raises. *)
Lemma exec_Blog_save_taken (lib : Library) (doc : jsval) (s : string)
      (w : World) :
  get doc "slug" = JStr s ->
  existsb (Blog.has_slug s) (blogs w) = true ->
  exists e, exec lib (Blog_save doc) w = (Raised e, w).
Proof.
  intros Hslug Htaken. unfold exec.
  destruct (as_string (get doc "_id")) as [oid|]; [|eexists; reflexivity].
  destruct (validate lib blogSchema doc) as [fs|] eqn:Hv; [|eexists; reflexivity].
  destruct (Blog.of_fields oid (clock w) fs) as [b|] eqn:Hb;
    [|eexists; reflexivity].
  rewrite (of_fields_slug _ _ _ _ _ (validate_keeps_slug _ _ _ _ Hslug Hv) Hb).
  rewrite Htaken. eexists. reflexivity.
Qed.

(** X16: the lookup and the save are two steps.  When a request passes
    the required-field check, its slug is free at the lookup, and another
    request stores a post with that slug before the save, the save is
    refused and the answer is 500 "Failed to create blog", not 409: the
    other request's post is kept and nothing is added. *)
Theorem X16_slug_taken_between_lookup_and_save :
  forall (lib : Library) (sched : schedule) (req : request) (w : World)
         (s : string) (rival : Blog.doc),
    nullish (body req) = false ->
    forallb (fun f => truthy (get (body req) f)) required_blog_fields = true ->
    get (body req) "slug" = JStr s ->
    rejects (sched 0%nat) = None ->
    find (Blog.has_slug s) (blogs (concurrently (sched 0%nat) w)) = None ->
    rejects (sched 1%nat) = None ->
    let w1 := concurrently (sched 1%nat)
                (take_oid (concurrently (sched 0%nat) w)) in
    find (Blog.has_slug s) (blogs w1) = Some rival ->
    let o := run lib sched (post_api_blogs req) w in
    reply o = res_status_json 500 (message "Failed to create blog") /\
    world_after o = w1 /\
    In rival (blogs (world_after o)).
Proof.
  intros lib sched req w s rival Hb Hreq Hslug H0 Hfree H1 w1 Hrival o.
  assert (Hrun : reply o = res_status_json 500 (message "Failed to create blog")
                 /\ world_after o = w1).
  { destruct (required_fields_truthy _ Hreq) as (Ht & He & Hc & Hn & Hs).
    subst o. unfold run, post_api_blogs, world_after, destructure.
    rewrite Hb.
    cbn -[get truthy exec construct]. rewrite Ht, He, Hc, Hn, Hs.
    cbn -[get truthy exec construct]. rewrite H0, Hslug.
    rewrite exec_Blog_findOne_slug, Hfree.
    cbn -[get exec construct].
    match goal with
    | |- context [exec lib (Date_new ?a) ?w0] =>
        destruct (exec_Date_new_any lib a w0) as [d Hd]
    end.
    rewrite Hd. cbn -[get exec construct].
    change (exec lib (Blog_new ?x) ?w0)
      with (Returned (construct blogSchema (new_ObjectId lib (next_oid w0))
                        (clock w0) x), take_oid w0).
    cbn -[get exec construct].
    rewrite H1. fold w1.
    match goal with
    | |- context [exec lib (Blog_save ?doc) w1] =>
        destruct (exec_Blog_save_taken lib doc s w1) as [e He']
    end.
    - reflexivity.
    - apply existsb_exists. exists rival.
      split; [apply (find_some _ _ Hrival) | apply (find_some _ _ Hrival)].
    - rewrite He'. cbn. auto. }
  destruct Hrun as [Hreply Hworld].
  repeat (split; [assumption|]).
  rewrite Hworld. apply (find_some _ _ Hrival).
Qed.

(* ------------------------------------------------------------------ *)
(** ** The rest of the service on the sample data *)

Lemma sample_world_unique_slugs : unique_slugs sample_world.
Proof.
  unfold unique_slugs. simpl.
  repeat constructor; simpl; intuition discriminate.
Qed.

Lemma always_quiet_calm : calm always_quiet.
Proof. intros n w. reflexivity. Qed.

Lemma failing_at_calm (n : nat) (e : jsval) : calm (failing_at n e).
Proof.
  intros m w. unfold failing_at. destruct (Nat.eqb m n); reflexivity.
Qed.

Lemma X1_witness :
  exists images,
    reply (run strict_library always_quiet
             (get_api_gallery (request_with JUndefined)) sample_world)
    = res_json (JArr (map GalleryImage.toObject images)) /\
    Permutation images [sample_image] /\
    newest_first GalleryImage.createdAt images /\
    world_after (run strict_library always_quiet
                   (get_api_gallery (request_with JUndefined)) sample_world)
    = sample_world.
Proof.
  exact (X1_gallery_list_newest_first strict_library always_quiet
           (request_with JUndefined) sample_world eq_refl).
Defined.

Lemma X2_witness :
  reply (run strict_library (failing_at 0 (message "down"))
           (get_api_blogs (request_with JUndefined)) sample_world)
  = res_status_json 500 (message "Failed to fetch blogs") /\
  reply (run strict_library (failing_at 0 (message "down"))
           (get_api_admin_blogs (request_with JUndefined)) sample_world)
  = res_status_json 500 (message "Failed to fetch blog list").
Proof.
  destruct (X2_reading_routes_answer_500 strict_library
              (failing_at 0 (message "down")) (request_with JUndefined)
              sample_world (message "down") eq_refl)
    as (_ & (Hblogs & _) & _ & (Hadmin & _)).
  exact (conj Hblogs Hadmin).
Defined.

Lemma X3_witness :
  reply (run strict_library always_quiet
           (get_api_blogs_slug (request_for "slug" "a-post")) sample_world)
  = res_json (Blog.toObject sample_post) /\
  reply (run strict_library always_quiet
           (get_api_blogs_slug (request_for "slug" "no-such-post")) sample_world)
  = res_status_json 404 (message "Blog not found").
Proof.
  split.
  - exact (proj1 (X3_blog_by_slug strict_library always_quiet
                    (request_for "slug" "a-post") sample_world "a-post"
                    eq_refl eq_refl)).
  - exact (proj1 (X3_blog_by_slug strict_library always_quiet
                    (request_for "slug" "no-such-post") sample_world
                    "no-such-post" eq_refl eq_refl)).
Defined.

Lemma X4_witness :
  reply (run strict_library always_quiet
           (delete_api_blogs_slug_slug (request_for "slug" "a-post"))
           sample_world)
  = res_json (message "Blog deleted successfully") /\
  find (Blog.has_slug "a-post")
       (blogs (world_after (run strict_library always_quiet
                              (delete_api_blogs_slug_slug
                                 (request_for "slug" "a-post"))
                              sample_world)))
  = None /\
  In later_post
     (blogs (world_after (run strict_library always_quiet
                            (delete_api_blogs_slug_slug
                               (request_for "slug" "a-post"))
                            sample_world))).
Proof.
  destruct (X4_delete_blog_by_slug strict_library always_quiet
              (request_for "slug" "a-post") sample_world "a-post"
              eq_refl eq_refl)
    as (Hfound & _ & Hkept & _ & Hgone & _).
  split; [exact (proj1 (Hfound sample_post eq_refl))|].
  split; [exact (Hgone sample_world_unique_slugs)|].
  apply Hkept; [right; now left | discriminate].
Defined.

Lemma X5_witness :
  reply (run strict_library always_quiet
           (post_api_gallery
              (request_with (JObj [("src", JStr "https://x/y.jpg")])))
           sample_world)
  = res_status_json 400 (message "Missing image data") /\
  world_after (run strict_library always_quiet
                 (post_api_gallery
                    (request_with (JObj [("src", JStr "https://x/y.jpg")])))
                 sample_world)
  = sample_world /\
  trace (run strict_library always_quiet
           (post_api_gallery
              (request_with (JObj [("src", JStr "https://x/y.jpg")])))
           sample_world)
  = [].
Proof.
  exact (X5_gallery_missing_image_data strict_library always_quiet
           (request_with (JObj [("src", JStr "https://x/y.jpg")]))
           sample_world eq_refl (or_intror eq_refl)).
Defined.

Lemma X6_witness :
  blogs (world_after (run strict_library (failing_at 0 (message "down"))
                        (post_api_gallery (request_with (JObj example_image)))
                        sample_world))
  = blogs sample_world /\
  assets (world_after (run strict_library (failing_at 0 (message "down"))
                         (post_api_gallery (request_with (JObj example_image)))
                         sample_world))
  = assets sample_world.
Proof.
  exact (proj2 (X6_gallery_create_all_or_nothing strict_library
                  (failing_at 0 (message "down"))
                  (request_with (JObj example_image)) sample_world
                  (failing_at_calm 0 (message "down")))).
Defined.

Lemma X7_witness :
  status (reply (run strict_library always_quiet
                   (post_api_gallery (request_with (JObj example_image)))
                   sample_world))
  = 201 /\
  get (sent (reply (run strict_library always_quiet
                      (post_api_gallery (request_with (JObj example_image)))
                      sample_world))) "alt"
  = JStr "Event Image".
Proof.
  exact (proj1 (X7_gallery_alt_default strict_library always_quiet
                  (request_with (JObj example_image)) sample_world
                  "https://x/w.jpg" "gallery/w"
                  eq_refl eq_refl (String_nonempty _ _)
                  eq_refl (String_nonempty _ _) eq_refl)
               eq_refl).
Defined.

Lemma X8_witness :
  unique_slugs (world_after (run strict_library always_quiet
                               (post_api_blogs (request_with (JObj example_post)))
                               sample_world)) /\
  gallery (world_after (run strict_library always_quiet
                          (post_api_blogs (request_with (JObj example_post)))
                          sample_world))
  = gallery sample_world.
Proof.
  destruct (X8_blog_create_all_or_nothing strict_library always_quiet
              (request_with (JObj example_post)) sample_world always_quiet_calm)
    as (_ & Hunique & Hgallery & _).
  exact (conj (Hunique sample_world_unique_slugs) Hgallery).
Defined.

Lemma X9_witness :
  reply (run strict_library always_quiet
           (get_api_blogs_slug (request_for "slug" "fresh-post"))
           (world_after (run strict_library always_quiet
                           (post_api_blogs (request_with (JObj example_post)))
                           sample_world)))
  = res_json (sent (reply (run strict_library always_quiet
                             (post_api_blogs (request_with (JObj example_post)))
                             sample_world))).
Proof.
  exact (proj1 (X9_created_post_is_read_back strict_library
                  always_quiet always_quiet
                  (request_with (JObj example_post))
                  (request_for "slug" "fresh-post") sample_world
                  always_quiet_calm always_quiet_calm eq_refl eq_refl eq_refl)).
Defined.

Lemma X10_witness :
  reply (run strict_library (failing_at 2 (message "down"))
           (delete_api_gallery_id (request_for "id" "0")) sample_world)
  = res_status_json 500 (message "Delete failed") /\
  In sample_image
     (gallery (world_after (run strict_library (failing_at 2 (message "down"))
                              (delete_api_gallery_id (request_for "id" "0"))
                              sample_world))) /\
  ~ In "gallery/y"
       (assets (world_after (run strict_library (failing_at 2 (message "down"))
                               (delete_api_gallery_id (request_for "id" "0"))
                               sample_world))).
Proof.
  destruct (X10_delete_fails_after_asset_is_gone strict_library
              (failing_at 2 (message "down")) (request_for "id" "0")
              sample_world sample_image (message "down")
              (failing_at_calm 2 (message "down"))
              eq_refl eq_refl eq_refl eq_refl)
    as (Hreply & _ & _ & Hin & Hgone).
  exact (conj Hreply (conj Hin Hgone)).
Defined.

Lemma X11_witness :
  reply (run strict_library always_quiet
           (delete_api_gallery_id (request_for "id" "0")) sample_world)
  = res_json (message "Image deleted successfully") /\
  ~ In "gallery/y"
       (assets (world_after (run strict_library always_quiet
                               (delete_api_gallery_id (request_for "id" "0"))
                               sample_world))) /\
  gallery (world_after (run strict_library always_quiet
                          (delete_api_gallery_id (request_for "id" "0"))
                          sample_world))
  = [].
Proof.
  destruct (X11_delete_removes_record_and_asset strict_library always_quiet
              (request_for "id" "0") sample_world sample_image
              always_quiet_calm eq_refl eq_refl eq_refl eq_refl)
    as (Hreply & Hgone & Hgallery & _).
  exact (conj Hreply (conj Hgone Hgallery)).
Defined.

Lemma X12_witness :
  trace (run strict_library (failing_at 0 (message "down"))
           (delete_api_gallery_id (request_for "id" "0")) sample_world)
  = [GalleryImage_findById (JStr "0"); console_error [message "down"]] /\
  world_after (run strict_library (failing_at 0 (message "down"))
                 (delete_api_blogs_slug_slug (request_for "slug" "a-post"))
                 sample_world)
  = sample_world.
Proof.
  split.
  - exact (proj1 (proj2 (proj1
             (X12_rejected_first_call_deletes_nothing strict_library
                (failing_at 0 (message "down")) (request_for "id" "0")
                sample_world (message "down") eq_refl)))).
  - exact (proj2 (proj2 (proj2
             (X12_rejected_first_call_deletes_nothing strict_library
                (failing_at 0 (message "down")) (request_for "slug" "a-post")
                sample_world (message "down") eq_refl)))).
Defined.

Lemma X13_witness :
  is_write_call (Blog_findOne_slug (JStr "a-post")) = false.
Proof.
  apply (X13_reading_routes_never_write (nat * World)
           (serve strict_library always_quiet) (0%nat, sample_world)
           (request_for "slug" "a-post")).
  right. right. right. left. left. reflexivity.
Defined.

Lemma X14_witness :
  is_media_call (Blog_save
                   (construct blogSchema "2" (clock sample_world)
                      (JObj (("featuredImage", JUndefined)
                             :: ("author", JUndefined)
                             :: ("readTime", JUndefined)
                             :: ("tags", JUndefined)
                             :: ("publishDate", JDate (Some (clock sample_world)))
                             :: example_post))))
  = false.
Proof.
  apply (X14_only_gallery_deletion_reaches_media_host (nat * World)
           (serve strict_library always_quiet) (0%nat, sample_world)
           (request_with (JObj example_post))).
  right. left. right. right. right. left. reflexivity.
Defined.

Lemma X15_witness :
  unique_slugs (world_after (run strict_library slug_taken_meanwhile
                               (post_api_blogs (request_with (JObj example_post)))
                               sample_world)).
Proof.
  apply X15_slugs_stay_unique; [exact sample_world_unique_slugs|].
  intros n w' Hw'. unfold slug_taken_meanwhile.
  destruct n as [|[|n]]; try exact Hw'.
  unfold concurrently.
  destruct (existsb (Blog.has_slug (Blog.slug rival_post)) (blogs w')) eqn:E.
  - exact Hw'.
  - unfold unique_slugs in *. cbn [blogs set_blogs].
    now apply NoDup_slugs_snoc.
Defined.

Lemma X16_witness :
  reply (run strict_library slug_taken_meanwhile
           (post_api_blogs (request_with (JObj example_post))) sample_world)
  = res_status_json 500 (message "Failed to create blog") /\
  In rival_post
     (blogs (world_after (run strict_library slug_taken_meanwhile
                            (post_api_blogs (request_with (JObj example_post)))
                            sample_world))) /\
  length (blogs (world_after (run strict_library slug_taken_meanwhile
                                (post_api_blogs (request_with (JObj example_post)))
                                sample_world)))
  = 3%nat.
Proof.
  destruct (X16_slug_taken_between_lookup_and_save strict_library
              slug_taken_meanwhile (request_with (JObj example_post))
              sample_world "fresh-post" rival_post
              eq_refl eq_refl eq_refl eq_refl eq_refl eq_refl eq_refl)
    as (Hreply & Hworld & Hin).
  split; [exact Hreply|]. split; [exact Hin|].
  rewrite Hworld. reflexivity.
Defined.
